(** * RTC::Transport: request handling, RTCP dispatch and RTCP scheduling

    A shallow embedding of [worker/src/RTC/Transport.cpp].  State is passed
    explicitly; everything a method does to the outside world (channel
    responses, listener callbacks, calls into producers and consumers, log
    lines, object destruction, timer and wire operations) is recorded, in
    program order, in a list of [Event]s.  Unsigned machine integers are
    integers in [Z] with their wrap-around written out. *)

From Stdlib Require Import ZArith List Bool Lia SpecFloat.
From stdpp Require Import gmap strings list fin_maps.

Set Warnings "-register-all".

Open Scope string_scope.
Open Scope list_scope.
Open Scope Z_scope.

(** ** Machine integers *)

Definition uint32_max : Z := 4294967295.
Definition uint64_max : Z := 18446744073709551615.

(** [static_cast<uint32_t>] of an unsigned value. *)
Definition to_uint32 (v : Z) : Z := v mod 2 ^ 32.

(** ** JSON values of the channel layer (nlohmann::json)

    The library keeps non-negative integers as [number_unsigned] (64 bits),
    negative ones as [number_integer] and everything with a fraction or an
    exponent as [number_float]. *)

Inductive Json : Type :=
| JNull
| JBoolean (b : bool)
| JNumberInteger (z : Z)
| JNumberUnsigned (n : Z)
| JNumberFloat (f : spec_float)
| JString (s : string)
| JArray (items : list Json)
| JObject (members : list (string * Json)).

Fixpoint assoc_find (key : string) (members : list (string * Json)) : option Json :=
  match members with
  | [] => None
  | (k, v) :: rest => if String.eqb k key then Some v else assoc_find key rest
  end.

(** [j.find(key)]: [None] stands for [j.end()].  On a value that is not an
    object [find] returns [end()]. *)
Definition json_find (key : string) (j : Json) : option Json :=
  match j with
  | JObject members => assoc_find key members
  | _ => None
  end.

Definition is_number_unsigned (j : Json) : bool :=
  match j with JNumberUnsigned _ => true | _ => false end.

Definition is_string (j : Json) : bool :=
  match j with JString _ => true | _ => false end.

(** [j.get<uint32_t>()] on a number: the stored 64-bit value goes through
    [static_cast<uint32_t>]. *)
Definition get_uint32 (j : Json) : Z :=
  match j with
  | JNumberUnsigned n => to_uint32 n
  | JNumberInteger z => to_uint32 z
  | _ => 0
  end.

Definition get_string (j : Json) : string :=
  match j with JString s => s | _ => "" end.

(** ** Channel requests *)

Inductive MethodId : Type :=
| TRANSPORT_SET_MAX_INCOMING_BITRATE
| PRODUCER_CLOSE
| CONSUMER_CLOSE
| OTHER_METHOD (tag : string).

Record Request : Type := mkRequest {
  methodId : MethodId;
  method : string;
  internal : Json;
  data : Json
}.

(** ** Producers and consumers, as far as the transport looks into them *)

Inductive MediaKind : Type := AUDIO | VIDEO.

Record RtpEncoding : Type := mkEncoding {
  ssrc : Z;
  hasRtx : bool;
  rtx_ssrc : Z;
  hasFec : bool;
  fec_ssrc : Z
}.

Record RtpHeaderExtensionIds : Type := mkExtIds {
  absSendTime : Z;
  mid : Z;
  rid : Z
}.

Record Producer : Type := mkProducer {
  producer_id : string;
  producer_encodings : list RtpEncoding;
  producer_extIds : RtpHeaderExtensionIds
}.

Record Consumer : Type := mkConsumer {
  consumer_id : string;
  kind : MediaKind;
  IsStarted : bool;
  consumer_encodings : list RtpEncoding
}.

#[global] Instance MediaKind_eq_dec : EqDecision MediaKind.
Proof. solve_decision. Defined.
#[global] Instance RtpEncoding_eq_dec : EqDecision RtpEncoding.
Proof. solve_decision. Defined.
#[global] Instance RtpHeaderExtensionIds_eq_dec : EqDecision RtpHeaderExtensionIds.
Proof. solve_decision. Defined.
#[global] Instance Producer_eq_dec : EqDecision Producer.
Proof. solve_decision. Defined.
#[global] Instance Consumer_eq_dec : EqDecision Consumer.
Proof. solve_decision. Defined.

(** ** Exceptions: [MS_THROW_ERROR] raises a [MediaSoupError] *)

Inductive Result (A : Type) : Type :=
| Ok (a : A)
| Throw (what : string).
Arguments Ok {A} a.
Arguments Throw {A} what.

(** ** RtpListener

    Modelled from the spec: the class RtpListener (RTC/RtpListener.cpp) is
    not among the sources.  The spec describes it as "a mapping SSRC ->
    Producer" that resolves Sender Reports and SDES chunks to their source,
    whose [AddProducer] "may fail if SSRCs collide", in which "every primary
    SSRC declared in [a producer's] RTP parameters is present" and in which
    "every SSRC maps to at most one producer".  The table is a finite map
    from SSRC to producer. *)

Module RtpListener.

(** Modelled from the spec: the RtpListener lookup by SSRC; [None] is
    [nullptr]. *)
Definition GetProducer (table : gmap Z Producer) (s : Z) : option Producer :=
  table !! s.

Definition primary_ssrcs (p : Producer) : list Z :=
  map ssrc (producer_encodings p).

(** An SSRC collides when the table already gives it to another producer. *)
Definition collides (table : gmap Z Producer) (p : Producer) (s : Z) : bool :=
  match table !! s with
  | Some q => negb (bool_decide (q = p))
  | None => false
  end.

Definition add_ssrcs (p : Producer) (ssrcs : list Z) (table : gmap Z Producer)
  : gmap Z Producer :=
  foldr (fun s tbl => <[s := p]> tbl) table ssrcs.

(** Modelled from the spec: RtpListener::AddProducer registers every primary
    SSRC of the producer; it throws, leaving the table as it was, when one
    of them collides. *)
Definition AddProducer (table : gmap Z Producer) (p : Producer)
  : Result (gmap Z Producer) :=
  if existsb (collides table p) (primary_ssrcs p)
  then Throw "ssrc already exists in RTP listener"
  else Ok (add_ssrcs p (primary_ssrcs p) table).

(** Modelled from the spec: RtpListener::RemoveProducer drops every entry
    that resolves to the producer. *)
Definition RemoveProducer (table : gmap Z Producer) (p : Producer)
  : gmap Z Producer :=
  filter (fun kv => kv.2 <> p) table.

End RtpListener.

(** ** RTCP packets handed to the transport

    The dynamic downcasts of [ReceiveRtcpPacket] select on the packet type,
    the feedback message type and the AFB application; the packet is the
    corresponding sum. *)

Record ReceiverReport : Type := mkRR { rr_ssrc : Z; rr_body : list Z }.
Record SenderReport : Type := mkSR { sr_ssrc : Z; sr_body : list Z }.
Record SdesChunk : Type := mkChunk { chunk_ssrc : Z; chunk_items : list string }.

Inductive AfbApplication : Type :=
| REMB (bitrate : Z)
| UNKNOWN_APPLICATION.

Inductive FeedbackPsMessage : Type :=
| PLI
| FIR
| AFB (application : AfbApplication)
| OTHER_PS (messageType : Z).

Inductive FeedbackRtpMessage : Type :=
| NACK (lost : list Z)
| OTHER_RTP (messageType : Z).

Inductive Packet : Type :=
| RR (reports : list ReceiverReport)
| SR (reports : list SenderReport)
| SDES (chunks : list SdesChunk)
| BYE
| PSFB (message : FeedbackPsMessage) (mediaSsrc : Z)
| RTPFB (message : FeedbackRtpMessage) (mediaSsrc : Z)
| OTHER_TYPE (type : Z).

(** What an outbound compound packet carries. *)
Inductive RtcpItem : Type :=
| ItemSenderReport (r : SenderReport)
| ItemReceiverReport (r : ReceiverReport)
| ItemSdesChunk (c : SdesChunk).

(** Modelled from the spec: the class CompoundPacket is not among the
    sources; the scheduler asks it whether it "contains at least one sender
    report" and whether it "has at least one receiver report". *)
Definition CompoundPacket : Type := list RtcpItem.

Definition is_sender_report (i : RtcpItem) : bool :=
  match i with ItemSenderReport _ => true | _ => false end.

Definition is_receiver_report (i : RtcpItem) : bool :=
  match i with ItemReceiverReport _ => true | _ => false end.

(** Modelled from the spec: CompoundPacket::HasSenderReport. *)
Definition HasSenderReport (packet : CompoundPacket) : bool :=
  existsb is_sender_report packet.

(** Modelled from the spec: CompoundPacket::GetReceiverReportCount. *)
Definition GetReceiverReportCount (packet : CompoundPacket) : Z :=
  Z.of_nat (length (List.filter is_receiver_report packet)).

(** ** Effects *)

Inductive LogLevel : Type := DEBUG | WARN | ERROR.

Inductive Event : Type :=
| Log (level : LogLevel) (message : string) (args : list Z)
| RequestAccept
| RequestReject (reason : string)
| OnTransportProducerClosed (p : Producer)
| OnTransportConsumerClosed (c : Consumer)
| OnTransportConsumerKeyFrameRequested (c : Consumer)
| DeleteProducer (p : Producer)
| DeleteConsumer (c : Consumer)
| ConsumerRequestKeyFrame (c : Consumer)
| ConsumerReceiveRtcpReceiverReport (c : Consumer) (report : ReceiverReport)
| ConsumerReceiveKeyFrameRequest (c : Consumer) (message : FeedbackPsMessage)
| ConsumerReceiveNack (c : Consumer) (lost : list Z)
| ProducerReceiveRtcpSenderReport (p : Producer) (report : SenderReport)
| SerializeCompoundPacket (packet : CompoundPacket)
| SendRtcpCompoundPacket (packet : CompoundPacket)
| TimerStart (interval : Z)
| TimerClose.

(** ** The transport *)

Record Transport : Type := mkTransport {
  id : Z;
  mapProducers : gmap string Producer;
  mapConsumers : gmap string Consumer;
  (** the collection [SendRtcp] iterates as [this->producers] *)
  producers : list Producer;
  rtpListener : gmap Z Producer;
  rtpHeaderExtensionIds : RtpHeaderExtensionIds;
  maxIncomingBitrate : Z;
  availableOutgoingBitrate : Z;
  rtcpTimer : option Z;
  (** what the variant's [IsConnected()] answers *)
  IsConnected : bool
}.

Definition set_mapProducers (m : gmap string Producer) (t : Transport) : Transport :=
  mkTransport (id t) m (mapConsumers t) (producers t) (rtpListener t)
    (rtpHeaderExtensionIds t) (maxIncomingBitrate t) (availableOutgoingBitrate t)
    (rtcpTimer t) (IsConnected t).

Definition set_mapConsumers (m : gmap string Consumer) (t : Transport) : Transport :=
  mkTransport (id t) (mapProducers t) m (producers t) (rtpListener t)
    (rtpHeaderExtensionIds t) (maxIncomingBitrate t) (availableOutgoingBitrate t)
    (rtcpTimer t) (IsConnected t).

Definition set_rtpListener (l : gmap Z Producer) (t : Transport) : Transport :=
  mkTransport (id t) (mapProducers t) (mapConsumers t) (producers t) l
    (rtpHeaderExtensionIds t) (maxIncomingBitrate t) (availableOutgoingBitrate t)
    (rtcpTimer t) (IsConnected t).

Definition set_rtpHeaderExtensionIds (x : RtpHeaderExtensionIds) (t : Transport)
  : Transport :=
  mkTransport (id t) (mapProducers t) (mapConsumers t) (producers t) (rtpListener t)
    x (maxIncomingBitrate t) (availableOutgoingBitrate t)
    (rtcpTimer t) (IsConnected t).

Definition set_maxIncomingBitrate (b : Z) (t : Transport) : Transport :=
  mkTransport (id t) (mapProducers t) (mapConsumers t) (producers t) (rtpListener t)
    (rtpHeaderExtensionIds t) b (availableOutgoingBitrate t)
    (rtcpTimer t) (IsConnected t).

Definition set_availableOutgoingBitrate (b : Z) (t : Transport) : Transport :=
  mkTransport (id t) (mapProducers t) (mapConsumers t) (producers t) (rtpListener t)
    (rtpHeaderExtensionIds t) (maxIncomingBitrate t) b
    (rtcpTimer t) (IsConnected t).

(** [Transport::Transport(id, listener)]: empty registries, a fresh RTCP
    timer.  [connected] is the answer of the variant's [IsConnected()]. *)
Definition Transport_new (id : Z) (timer : Z) (connected : bool) : Transport :=
  mkTransport id ∅ ∅ [] ∅ (mkExtIds 0 0 0) 0 0 (Some timer) connected.

(** ** Transport::Close *)

Definition close_producers (kvs : list (string * Producer)) : list Event :=
  flat_map (fun kv => [OnTransportProducerClosed kv.2; DeleteProducer kv.2]) kvs.

Definition close_consumers (kvs : list (string * Consumer)) : list Event :=
  flat_map (fun kv => [OnTransportConsumerClosed kv.2; DeleteConsumer kv.2]) kvs.

Definition Close (t : Transport) : Transport * list Event :=
  let ev1 := close_producers (map_to_list (mapProducers t)) in
  let t1 := set_mapProducers ∅ t in
  let ev2 := close_consumers (map_to_list (mapConsumers t1)) in
  let t2 := set_mapConsumers ∅ t1 in
  let ev3 := match rtcpTimer t2 with Some _ => [TimerClose] | None => [] end in
  (t2, ev1 ++ ev2 ++ ev3).

(** ** Looking entities up from a request *)

Definition MinBitrate : Z := 10000.

Definition GetProducerFromRequest (t : Transport) (request : Request)
  : Result Producer :=
  match json_find "producerId" (internal request) with
  | None => Throw "request has no internal.producerId"
  | Some jsonProducerId =>
      if negb (is_string jsonProducerId)
      then Throw "request has no internal.producerId"
      else
        match mapProducers t !! get_string jsonProducerId with
        | None => Throw "Producer not found"
        | Some producer => Ok producer
        end
  end.

Definition GetConsumerFromRequest (t : Transport) (request : Request)
  : Result Consumer :=
  match json_find "consumerId" (internal request) with
  | None => Throw "request has no internal.consumerId"
  | Some jsonConsumerId =>
      if negb (is_string jsonConsumerId)
      then Throw "request has no internal.consumerId"
      else
        match mapConsumers t !! get_string jsonConsumerId with
        | None => Throw "Consumer not found"
        | Some consumer => Ok consumer
        end
  end.

(** ** HandleRequest *)

Section HandleRequest.

(** The CONSUMER_CLOSE case stores the consumer it looks up in a local that
    it declares under the name [producer], and then erases, notifies and
    deletes [consumer], a name the case never declares.  [consumer] is
    whatever that name denotes outside the case. *)
Variable consumer : Consumer.

Definition HandleRequest (t : Transport) (request : Request)
  : Result (Transport * list Event) :=
  match methodId request with
  | TRANSPORT_SET_MAX_INCOMING_BITRATE =>
      match json_find "bitrate" (data request) with
      | None => Ok (t, [RequestReject "missing bitrate"])
      | Some jsonBitrate =>
          if negb (is_number_unsigned jsonBitrate)
          then Ok (t, [RequestReject "missing bitrate"])
          else
            let bitrate := get_uint32 jsonBitrate in
            let bitrate := if bitrate <? MinBitrate then MinBitrate else bitrate in
            let t1 := set_maxIncomingBitrate bitrate t in
            Ok (t1, [Log DEBUG "Transport maximum incoming bitrate set" [bitrate];
                     RequestAccept])
      end
  | PRODUCER_CLOSE =>
      match GetProducerFromRequest t request with
      | Throw error => Ok (t, [RequestReject error])
      | Ok producer =>
          let t1 := set_mapProducers (delete (producer_id producer) (mapProducers t)) t in
          let t2 := set_rtpListener (RtpListener.RemoveProducer (rtpListener t1) producer) t1 in
          Ok (t2, [OnTransportProducerClosed producer;
                   DeleteProducer producer;
                   RequestAccept])
      end
  | CONSUMER_CLOSE =>
      match GetConsumerFromRequest t request with
      | Throw error => Ok (t, [RequestReject error])
      | Ok producer =>
          let t1 := set_mapConsumers (delete (consumer_id consumer) (mapConsumers t)) t in
          Ok (t1, [OnTransportConsumerClosed consumer;
                   DeleteConsumer consumer;
                   RequestAccept])
      end
  | OTHER_METHOD _ =>
      Ok (t, [Log ERROR "unknown method" []; RequestReject "unknown method"])
  end.

End HandleRequest.

(** ** Registering producers and consumers *)

Definition merge_extIds (mine theirs : RtpHeaderExtensionIds) : RtpHeaderExtensionIds :=
  let m1 := if negb (absSendTime theirs =? 0)
            then mkExtIds (absSendTime theirs) (mid mine) (rid mine) else mine in
  let m2 := if negb (mid theirs =? 0)
            then mkExtIds (absSendTime m1) (mid theirs) (rid m1) else m1 in
  if negb (rid theirs =? 0)
  then mkExtIds (absSendTime m2) (mid m2) (rid theirs) else m2.

(** [rtpListener.AddProducer] may throw; the exception leaves
    [HandleProducer] before anything else is touched. *)
Definition HandleProducer (t : Transport) (producer : Producer) : Result Transport :=
  match RtpListener.AddProducer (rtpListener t) producer with
  | Throw error => Throw error
  | Ok listener =>
      let t1 := set_rtpListener listener t in
      let t2 := set_mapProducers (<[producer_id producer := producer]> (mapProducers t1)) t1 in
      Ok (set_rtpHeaderExtensionIds
            (merge_extIds (rtpHeaderExtensionIds t2) (producer_extIds producer)) t2)
  end.

Definition HandleConsumer (t : Transport) (consumer : Consumer)
  : Transport * list Event :=
  let t1 := set_mapConsumers (<[consumer_id consumer := consumer]> (mapConsumers t)) t in
  if IsConnected t1
  then
    let ev := match kind consumer with
              | VIDEO => [Log DEBUG
                  "requesting key frame for new Consumer since Transport already connected" []]
              | _ => []
              end in
    (t1, ev ++ [ConsumerRequestKeyFrame consumer])
  else (t1, []).

(** ** GetStartedConsumer *)

Fixpoint find_encoding (s : Z) (encodings : list RtpEncoding) : bool :=
  match encodings with
  | [] => false
  | encoding :: rest =>
      if ssrc encoding =? s then true
      else if hasRtx encoding && (rtx_ssrc encoding =? s) then true
      else if hasFec encoding && (fec_ssrc encoding =? s) then true
      else find_encoding s rest
  end.

Fixpoint scan_consumers (s : Z) (kvs : list (string * Consumer)) : option Consumer :=
  match kvs with
  | [] => None
  | kv :: rest =>
      let consumer := kv.2 in
      if negb (IsStarted consumer) then scan_consumers s rest
      else if find_encoding s (consumer_encodings consumer) then Some consumer
      else scan_consumers s rest
  end.

Definition GetStartedConsumer (t : Transport) (s : Z) : option Consumer :=
  scan_consumers s (map_to_list (mapConsumers t)).

(** ** ReceiveRtcpPacket *)

(** The loop over the reports of a Receiver Report: [break] on the first
    report without a started consumer. *)
Fixpoint receive_rr (t : Transport) (reports : list ReceiverReport) : list Event :=
  match reports with
  | [] => []
  | report :: rest =>
      match GetStartedConsumer t (rr_ssrc report) with
      | None =>
          [Log WARN "no Consumer found for received Receiver Report" [rr_ssrc report]]
      | Some consumer =>
          ConsumerReceiveRtcpReceiverReport consumer report :: receive_rr t rest
      end
  end.

(** The loop over the reports of a Sender Report: [continue] on a report
    without a producer. *)
Fixpoint receive_sr (t : Transport) (reports : list SenderReport) : list Event :=
  match reports with
  | [] => []
  | report :: rest =>
      match RtpListener.GetProducer (rtpListener t) (sr_ssrc report) with
      | None =>
          Log WARN "no Producer found for received Sender Report" [sr_ssrc report]
            :: receive_sr t rest
      | Some producer =>
          ProducerReceiveRtcpSenderReport producer report :: receive_sr t rest
      end
  end.

Fixpoint receive_sdes (t : Transport) (chunks : list SdesChunk) : list Event :=
  match chunks with
  | [] => []
  | chunk :: rest =>
      match RtpListener.GetProducer (rtpListener t) (chunk_ssrc chunk) with
      | None =>
          Log WARN "no Producer for received SDES chunk" [chunk_ssrc chunk]
            :: receive_sdes t rest
      | Some _ => receive_sdes t rest
      end
  end.

Definition ps_messageType (m : FeedbackPsMessage) : Z :=
  match m with
  | PLI => 1
  | FIR => 4
  | AFB _ => 15
  | OTHER_PS n => n
  end.

Definition rtp_messageType (m : FeedbackRtpMessage) : Z :=
  match m with
  | NACK _ => 1
  | OTHER_RTP n => n
  end.

Definition ReceiveRtcpPacket (t : Transport) (packet : Packet)
  : Transport * list Event :=
  match packet with
  | RR reports => (t, receive_rr t reports)
  | PSFB message mediaSsrc =>
      match message with
      | PLI | FIR =>
          match GetStartedConsumer t mediaSsrc with
          | None =>
              (t, [Log WARN "no Consumer found for received Feedback packet"
                     [ps_messageType message; mediaSsrc; mediaSsrc]])
          | Some consumer =>
              (t, [Log DEBUG "received, requesting key frame for Consumer"
                     [ps_messageType message; mediaSsrc; mediaSsrc];
                   ConsumerReceiveKeyFrameRequest consumer message])
          end
      | AFB (REMB bitrate) =>
          (set_availableOutgoingBitrate (to_uint32 bitrate) t, [])
      | AFB UNKNOWN_APPLICATION =>
          (t, [Log WARN "ignoring unsupported Feedback PS AFB packet"
                 [ps_messageType message; mediaSsrc; mediaSsrc]])
      | OTHER_PS _ =>
          (t, [Log WARN "ignoring unsupported Feedback packet"
                 [ps_messageType message; mediaSsrc; mediaSsrc]])
      end
  | RTPFB message mediaSsrc =>
      match GetStartedConsumer t mediaSsrc with
      | None =>
          (t, [Log WARN "no Consumer found for received Feedback packet"
                 [mediaSsrc; mediaSsrc]])
      | Some consumer =>
          match message with
          | NACK lost => (t, [ConsumerReceiveNack consumer lost])
          | OTHER_RTP _ =>
              (t, [Log WARN "ignoring unsupported Feedback packet"
                     [rtp_messageType message; mediaSsrc; mediaSsrc]])
          end
      end
  | SR reports => (t, receive_sr t reports)
  | SDES chunks => (t, receive_sdes t chunks)
  | BYE => (t, [Log DEBUG "ignoring received RTCP BYE" []])
  | OTHER_TYPE type => (t, [Log WARN "unhandled RTCP type received" [type]])
  end.

(** ** Single-precision arithmetic of the interval jitter

    [interval *= static_cast<float>(r) / 10] converts the 64-bit interval to
    [float], multiplies in [float] and converts the product back, which
    truncates.  IEEE 754 binary32, rounding to nearest even. *)

Definition float_of_uint (n : Z) : spec_float := binary_normalize 24 128 n 0 false.

Definition float_div : spec_float -> spec_float -> spec_float := SFdiv 24 128.

Definition float_mul : spec_float -> spec_float -> spec_float := SFmul 24 128.

(** Conversion of a non-negative finite [float] to [uint64_t]. *)
Definition uint64_of_float (f : spec_float) : Z :=
  match f with
  | S754_finite false m e =>
      match e with
      | Zneg k => Z.shiftr (Zpos m) (Zpos k)
      | _ => Z.shiftl (Zpos m) e
      end
  | _ => 0
  end.

(** [static_cast<float>(r) / 10] *)
Definition jitter_factor (r : Z) : spec_float :=
  float_div (float_of_uint r) (float_of_uint 10).

Definition scale_by (factor : spec_float) (interval : Z) : Z :=
  uint64_of_float (float_mul (float_of_uint interval) factor).

(** [interval *= static_cast<float>(r) / 10] *)
Definition scale_interval (interval r : Z) : Z := scale_by (jitter_factor r) interval.

(** Modelled from the spec: the constant RTC::RTCP::MaxVideoIntervalMs is
    declared outside the sources; the spec gives it as "typically 1000 ms". *)
Definition MaxVideoIntervalMs : Z := 1000.

(** ** The RTCP scheduler: SendRtcp and OnTimer *)

Section RtcpScheduler.

(** Declared outside the sources: the size of a serialized compound, the
    size of the RTCP buffer, what a consumer or a producer appends to the
    compound, the transmission rate of a consumer (bits per second). *)
Variable GetSize : CompoundPacket -> Z.
Variable BufferSize : Z.
Variable Consumer_GetRtcp : Consumer -> CompoundPacket -> Z -> CompoundPacket.
Variable Producer_GetRtcp : Producer -> CompoundPacket -> Z -> CompoundPacket.
Variable GetTransmissionRate : Consumer -> Z -> Z.

Definition too_big (packet : CompoundPacket) : Event :=
  Log WARN "cannot send RTCP packet, size too big" [GetSize packet].

(** The loop over the consumers.  [None] in the second component is the
    [return] out of [SendRtcp]; [Some packet] is the compound the loop
    leaves behind. *)
Fixpoint send_consumers (now : Z) (kvs : list (string * Consumer))
    (packet : CompoundPacket) : list Event * option CompoundPacket :=
  match kvs with
  | [] => ([], Some packet)
  | kv :: rest =>
      let packet := Consumer_GetRtcp kv.2 packet now in
      if HasSenderReport packet
      then
        if GetSize packet >? BufferSize
        then ([too_big packet], None)
        else
          let r := send_consumers now rest [] in
          (SerializeCompoundPacket packet :: SendRtcpCompoundPacket packet :: r.1, r.2)
      else send_consumers now rest packet
  end.

Definition collect_producers (now : Z) (ps : list Producer) (packet : CompoundPacket)
  : CompoundPacket :=
  fold_left (fun pk producer => Producer_GetRtcp producer pk now) ps packet.

Definition send_receiver_reports (packet : CompoundPacket) : list Event :=
  if negb (GetReceiverReportCount packet =? 0)
  then
    if GetSize packet >? BufferSize
    then [too_big packet]
    else [SerializeCompoundPacket packet; SendRtcpCompoundPacket packet]
  else [].

Definition SendRtcp (t : Transport) (now : Z) : list Event :=
  let r := send_consumers now (map_to_list (mapConsumers t)) [] in
  match r.2 with
  | None => r.1
  | Some packet =>
      r.1 ++ send_receiver_reports (collect_producers now (producers t) packet)
  end.

(** [rate += consumer->GetTransmissionRate(now) / 1000] over the consumers,
    in [uint32_t]. *)
Definition sum_rate (now : Z) (kvs : list (string * Consumer)) : Z :=
  fold_left (fun rate kv => to_uint32 (rate + GetTransmissionRate kv.2 now / 1000))
    kvs 0.

(** The interval before the jitter is applied. *)
Definition next_interval (t : Transport) (now : Z) : Z :=
  let interval := MaxVideoIntervalMs in
  if negb (bool_decide (mapConsumers t = ∅))
  then
    let rate := sum_rate now (map_to_list (mapConsumers t)) in
    let interval := if negb (rate =? 0) then 360000 / rate else interval in
    if interval >? MaxVideoIntervalMs then MaxVideoIntervalMs else interval
  else interval.

(** [now] is [DepLibUV::GetTime()], [random] what
    [Utils::Crypto::GetRandomUInt(5, 15)] returns. *)
Definition OnTimer (t : Transport) (timer : Z) (now : Z) (random : Z) : list Event :=
  if bool_decide (Some timer = rtcpTimer t)
  then
    SendRtcp t now ++ [TimerStart (scale_interval (next_interval t now) random)]
  else [].

End RtcpScheduler.

(** ** Reachable states and invariants *)

(** One step of the producer life cycle: a producer is registered, a
    PRODUCER_CLOSE request is handled, or the transport is closed. *)
Inductive producer_step (consumer : Consumer) : Transport -> Transport -> Prop :=
| step_HandleProducer t producer t' :
    HandleProducer t producer = Ok t' ->
    producer_step consumer t t'
| step_PRODUCER_CLOSE t request t' events :
    methodId request = PRODUCER_CLOSE ->
    HandleRequest consumer t request = Ok (t', events) ->
    producer_step consumer t t'
| step_Close t t' events :
    Close t = (t', events) ->
    producer_step consumer t t'.

Inductive reachable (consumer : Consumer) : Transport -> Prop :=
| reachable_new id timer connected :
    reachable consumer (Transport_new id timer connected)
| reachable_step t t' :
    reachable consumer t -> producer_step consumer t t' -> reachable consumer t'.

(** Every producer is filed under its own id. *)
Definition keys_consistent (t : Transport) : Prop :=
  forall k p, mapProducers t !! k = Some p -> producer_id p = k.

(** Every primary SSRC of a registered producer resolves to that producer. *)
Definition ssrcs_registered (t : Transport) : Prop :=
  forall k p s,
    mapProducers t !! k = Some p ->
    In s (RtpListener.primary_ssrcs p) ->
    rtpListener t !! s = Some p.

(** No entry of the listener resolves to a producer outside the map. *)
Definition no_stale_entry (t : Transport) : Prop :=
  forall s p, rtpListener t !! s = Some p -> exists k, mapProducers t !! k = Some p.

Definition is_response (e : Event) : bool :=
  match e with
  | RequestAccept | RequestReject _ => true
  | _ => false
  end.

Definition is_warning (e : Event) : bool :=
  match e with
  | Log WARN _ _ | Log ERROR _ _ => true
  | _ => false
  end.

(** A key frame is asked for the consumer, on the consumer itself or through
    the router listener. *)
Definition key_frame_requested (events : list Event) (c : Consumer) : Prop :=
  In (ConsumerRequestKeyFrame c) events \/
  In (OnTransportConsumerKeyFrameRequested c) events.

(** The compound is serialized or handed to the wire. *)
Definition emitted (events : list Event) (packet : CompoundPacket) : Prop :=
  In (SerializeCompoundPacket packet) events \/ In (SendRtcpCompoundPacket packet) events.

(** ** Fixtures *)

Definition enc (s : Z) : RtpEncoding := mkEncoding s false 0 false 0.

Definition p1 : Producer := mkProducer "p1" [enc 100] (mkExtIds 0 0 0).
Definition p2 : Producer := mkProducer "p2" [enc 101] (mkExtIds 3 0 0).
Definition c1 : Consumer := mkConsumer "c1" VIDEO true [enc 200].
Definition c2 : Consumer := mkConsumer "c2" AUDIO true [enc 300].

Definition t_new : Transport := Transport_new 1 7 true.

Definition request_bitrate (j : Json) : Request :=
  mkRequest TRANSPORT_SET_MAX_INCOMING_BITRATE "transport.setMaxIncomingBitrate"
    (JObject []) (JObject [("bitrate", j)]).

Definition request_producer_close (pid : string) : Request :=
  mkRequest PRODUCER_CLOSE "producer.close"
    (JObject [("producerId", JString pid)]) (JObject []).

Definition request_consumer_close (cid : string) : Request :=
  mkRequest CONSUMER_CLOSE "consumer.close"
    (JObject [("consumerId", JString cid)]) (JObject []).

(** The transport after [HandleProducer t_new p1]. *)
Definition t_p1 : Transport :=
  mkTransport 1 {[ "p1" := p1 ]} ∅ [] {[ 100 := p1 ]} (mkExtIds 0 0 0) 0 0 (Some 7) true.

(** The transport after [HandleConsumer] of [c1] and of [c2] on [t_new]. *)
Definition t_c12 : Transport :=
  mkTransport 1 ∅ (<[ "c2" := c2 ]> {[ "c1" := c1 ]}) [] ∅ (mkExtIds 0 0 0) 0 0
    (Some 7) true.

(** A transport with the producer [p1] (SSRC 100) and the started consumer
    [c1] (SSRC 200). *)
Definition t_p1c1 : Transport :=
  mkTransport 1 {[ "p1" := p1 ]} {[ "c1" := c1 ]} [p1] {[ 100 := p1 ]}
    (mkExtIds 0 0 0) 0 0 (Some 7) true.

(** A transport without consumers whose [producers] are [p1] and [p2]. *)
Definition t_rr : Transport :=
  mkTransport 1 ∅ ∅ [p1; p2] ∅ (mkExtIds 0 0 0) 0 0 (Some 7) true.

(** A serialization that takes 100 bytes per item, a buffer of 150 bytes, a
    consumer that appends a sender report and an SDES chunk, a producer that
    appends a receiver report, and a consumer sending 8 Mbit/s. *)
Definition size_100 (packet : CompoundPacket) : Z := 100 * Z.of_nat (length packet).

Definition buffer_150 : Z := 150.

Definition consumer_rtcp (c : Consumer) (packet : CompoundPacket) (now : Z)
  : CompoundPacket :=
  packet ++ [ItemSenderReport (mkSR 200 [now]); ItemSdesChunk (mkChunk 200 ["cname"])].

Definition producer_rtcp (p : Producer) (packet : CompoundPacket) (now : Z)
  : CompoundPacket :=
  packet ++ [ItemReceiverReport (mkRR 100 [now])].

Definition rate_8M (c : Consumer) (now : Z) : Z := 8000000.

(** ** The interval as the spec words it

    "Default: MaxVideoIntervalMs.  If there is at least one consumer, sum the
    per-consumer transmission rate converted to kbit/s; if the sum is
    nonzero, set interval = 360_000 / rate_kbps; clamp to the ceiling." *)
Definition spec_base (has_consumers : bool) (rate_kbps : Z) : Z :=
  if has_consumers && negb (rate_kbps =? 0)
  then Z.min (360000 / rate_kbps) MaxVideoIntervalMs
  else MaxVideoIntervalMs.

Definition zrange (lo n : nat) : list Z := map Z.of_nat (seq lo n).

(** The jittered interval against the exact product: it is the product
    rounded down, or one less, and never under half of the base. *)
Definition scale_ok (r b : Z) : bool :=
  let s := scale_interval b r in
  (b / 2 <=? s) && (b * r / 10 - 1 <=? s) && (s <=? b * r / 10).

(** ** Exceptional conditions *)

(** The request lacks a well-typed field, names no entity, or carries a
    method the transport does not know. *)
Definition request_exceptional (t : Transport) (request : Request) : Prop :=
  match methodId request with
  | TRANSPORT_SET_MAX_INCOMING_BITRATE =>
      forall v, json_find "bitrate" (data request) <> Some (JNumberUnsigned v)
  | PRODUCER_CLOSE =>
      forall pid, json_find "producerId" (internal request) = Some (JString pid) ->
                  mapProducers t !! pid = None
  | CONSUMER_CLOSE =>
      forall cid, json_find "consumerId" (internal request) = Some (JString cid) ->
                  mapConsumers t !! cid = None
  | OTHER_METHOD _ => True
  end.

(** The packet has an unknown type or subtype, or one of its SSRCs has no
    peer in the transport. *)
Definition rtcp_exceptional (t : Transport) (packet : Packet) : Prop :=
  match packet with
  | RR reports => Exists (fun r => GetStartedConsumer t (rr_ssrc r) = None) reports
  | SR reports => Exists (fun r => rtpListener t !! sr_ssrc r = None) reports
  | SDES chunks => Exists (fun c => rtpListener t !! chunk_ssrc c = None) chunks
  | BYE => False
  | PSFB (AFB (REMB _)) _ => False
  | PSFB (AFB UNKNOWN_APPLICATION) _ => True
  | PSFB (OTHER_PS _) _ => True
  | PSFB _ mediaSsrc => GetStartedConsumer t mediaSsrc = None
  | RTPFB (NACK _) mediaSsrc => GetStartedConsumer t mediaSsrc = None
  | RTPFB (OTHER_RTP _) _ => True
  | OTHER_TYPE _ => True
  end.

(** What the transport does with one report whose peer exists. *)
Definition rr_delivery (t : Transport) (report : ReceiverReport) : list Event :=
  match GetStartedConsumer t (rr_ssrc report) with
  | Some consumer => [ConsumerReceiveRtcpReceiverReport consumer report]
  | None => []
  end.

Definition sr_outcome (t : Transport) (report : SenderReport) : Event :=
  match rtpListener t !! sr_ssrc report with
  | Some producer => ProducerReceiveRtcpSenderReport producer report
  | None => Log WARN "no Producer found for received Sender Report" [sr_ssrc report]
  end.

(** ** Transport::~Transport

    The destructor deletes every producer and every consumer and clears both
    maps without a word to the listener, then deletes the RTCP timer when
    there is one.  The second component is the timer that is deleted. *)

Definition delete_producers (kvs : list (string * Producer)) : list Event :=
  map (fun kv => DeleteProducer kv.2) kvs.

Definition delete_consumers (kvs : list (string * Consumer)) : list Event :=
  map (fun kv => DeleteConsumer kv.2) kvs.

Definition Transport_destructor (t : Transport) : list Event * option Z :=
  let ev1 := delete_producers (map_to_list (mapProducers t)) in
  let t1 := set_mapProducers ∅ t in
  let ev2 := delete_consumers (map_to_list (mapConsumers t1)) in
  let t2 := set_mapConsumers ∅ t1 in
  (ev1 ++ ev2, rtcpTimer t2).

(** ** Choosing the id of a new producer or consumer

    [producerId] is the string the caller passes by reference: the first
    component is its content when the method returns or throws.  The id is
    assigned before the map is searched. *)

Definition SetNewProducerIdFromRequest (t : Transport) (request : Request)
    (producerId : string) : string * Result unit :=
  match json_find "producerId" (internal request) with
  | None => (producerId, Throw "request has no internal.producerId")
  | Some jsonProducerId =>
      if negb (is_string jsonProducerId)
      then (producerId, Throw "request has no internal.producerId")
      else
        let producerId := get_string jsonProducerId in
        match mapProducers t !! producerId with
        | Some _ => (producerId, Throw "a Producer with same producerId already exists")
        | None => (producerId, Ok tt)
        end
  end.

Definition SetNewConsumerIdFromRequest (t : Transport) (request : Request)
    (consumerId : string) : string * Result unit :=
  match json_find "consumerId" (internal request) with
  | None => (consumerId, Throw "request has no internal.consumerId")
  | Some jsonConsumerId =>
      if negb (is_string jsonConsumerId)
      then (consumerId, Throw "request has no internal.consumerId")
      else
        let consumerId := get_string jsonConsumerId in
        match mapConsumers t !! consumerId with
        | Some _ => (consumerId, Throw "a Consumer with same consumerId already exists")
        | None => (consumerId, Ok tt)
        end
  end.

(** ** Every operation that changes the transport

    [SendRtcp] and [OnTimer] read the transport and leave it as it is. *)

Inductive transport_op (consumer : Consumer) : Transport -> Transport -> Prop :=
| op_HandleProducer t producer t' :
    HandleProducer t producer = Ok t' ->
    transport_op consumer t t'
| op_HandleConsumer t c :
    transport_op consumer t (HandleConsumer t c).1
| op_HandleRequest t request t' events :
    HandleRequest consumer t request = Ok (t', events) ->
    transport_op consumer t t'
| op_Close t :
    transport_op consumer t (Close t).1
| op_ReceiveRtcpPacket t packet :
    transport_op consumer t (ReceiveRtcpPacket t packet).1.

Definition reachable_all (consumer : Consumer) (t : Transport) : Prop :=
  exists id timer connected,
    rtc (transport_op consumer) (Transport_new id timer connected) t.

(** Every consumer is filed under its own id. *)
Definition consumer_keys_consistent (t : Transport) : Prop :=
  forall k c, mapConsumers t !! k = Some c -> consumer_id c = k.

(** The encoding carries the SSRC as its primary SSRC, as the SSRC of its
    RTX stream or as the SSRC of its FEC stream. *)
Definition encoding_has_ssrc (s : Z) (e : RtpEncoding) : Prop :=
  ssrc e = s \/ (hasRtx e = true /\ rtx_ssrc e = s) \/ (hasFec e = true /\ fec_ssrc e = s).

Definition consumer_listens (c : Consumer) (s : Z) : Prop :=
  IsStarted c = true /\ Exists (encoding_has_ssrc s) (consumer_encodings c).

(** The consumer a call is made on. *)
Definition event_consumer (e : Event) : option Consumer :=
  match e with
  | ConsumerRequestKeyFrame c => Some c
  | ConsumerReceiveRtcpReceiverReport c _ => Some c
  | ConsumerReceiveKeyFrameRequest c _ => Some c
  | ConsumerReceiveNack c _ => Some c
  | _ => None
  end.

Definition is_listener_callback (e : Event) : bool :=
  match e with
  | OnTransportProducerClosed _ | OnTransportConsumerClosed _
  | OnTransportConsumerKeyFrameRequested _ => true
  | _ => false
  end.

Definition is_delete (e : Event) : bool :=
  match e with
  | DeleteProducer _ | DeleteConsumer _ => true
  | _ => false
  end.

Definition is_send (e : Event) : bool :=
  match e with
  | SendRtcpCompoundPacket _ => true
  | _ => false
  end.

Definition bitrate_floor (t : Transport) : Prop :=
  maxIncomingBitrate t = 0 \/ 10000 <= maxIncomingBitrate t <= uint32_max.

(** A consumer sending 400 Mbit/s; a producer that declares two header
    extension ids; a request without [internal] ids. *)
Definition rate_400M (c : Consumer) (now : Z) : Z := 400000000.

Definition p3 : Producer := mkProducer "p3" [enc 102] (mkExtIds 0 4 5).

Definition request_new_producer (pid : string) : Request :=
  mkRequest (OTHER_METHOD "transport.produce") "transport.produce"
    (JObject [("producerId", JString pid)]) (JObject []).

Definition request_new_consumer (cid : string) : Request :=
  mkRequest (OTHER_METHOD "transport.consume") "transport.consume"
    (JObject [("consumerId", JString cid)]) (JObject []).

(** The transport after [HandleProducer t_new p2], and after
    [HandleProducer] of [p3] on top of it. *)
Definition t_p2 : Transport :=
  mkTransport 1 {[ "p2" := p2 ]} ∅ [] {[ 101 := p2 ]} (mkExtIds 3 0 0) 0 0 (Some 7) true.

Definition t_p2p3 : Transport :=
  mkTransport 1 (<[ "p3" := p3 ]> {[ "p2" := p2 ]}) ∅ [] (<[ 102 := p3 ]> {[ 101 := p2 ]})
    (mkExtIds 3 4 5) 0 0 (Some 7) true.

(** ** The lifetime of consumers

    [delete] ends the life of an object.  A trace keeps to the lifetime of
    the consumers when no consumer is notified about, called or deleted
    after its delete: the listener is promised a live consumer, and a second
    [delete] of the same object is undefined behaviour, in practice the
    abort of the process.  [deleted] are the consumers deleted so far. *)

Definition event_touches_consumer (e : Event) : option Consumer :=
  match e with
  | OnTransportConsumerClosed c => Some c
  | OnTransportConsumerKeyFrameRequested c => Some c
  | DeleteConsumer c => Some c
  | ConsumerRequestKeyFrame c => Some c
  | ConsumerReceiveRtcpReceiverReport c _ => Some c
  | ConsumerReceiveKeyFrameRequest c _ => Some c
  | ConsumerReceiveNack c _ => Some c
  | _ => None
  end.

Definition is_deleted (deleted : list Consumer) (c : Consumer) : bool :=
  existsb (fun d => bool_decide (d = c)) deleted.

Fixpoint lifetime_ok (deleted : list Consumer) (events : list Event) : bool :=
  match events with
  | [] => true
  | e :: rest =>
      match event_touches_consumer e with
      | None => lifetime_ok deleted rest
      | Some c =>
          if is_deleted deleted c then false
          else
            match e with
            | DeleteConsumer _ => lifetime_ok (c :: deleted) rest
            | _ => lifetime_ok deleted rest
            end
      end
  end.

(** * Properties *)

(** ** TRANSPORT_SET_MAX_INCOMING_BITRATE *)

Lemma set_max_accept consumer t request v :
  methodId request = TRANSPORT_SET_MAX_INCOMING_BITRATE ->
  json_find "bitrate" (data request) = Some (JNumberUnsigned v) ->
  HandleRequest consumer t request =
    Ok (set_maxIncomingBitrate (Z.max (v mod 2 ^ 32) 10000) t,
        [Log DEBUG "Transport maximum incoming bitrate set" [Z.max (v mod 2 ^ 32) 10000];
         RequestAccept]).
Proof.
  intros Hm Hf. unfold HandleRequest. rewrite Hm, Hf. cbn [is_number_unsigned negb get_uint32].
  unfold to_uint32, MinBitrate.
  destruct (Z.ltb_spec (v mod 2 ^ 32) 10000) as [Hlt | Hge].
  - rewrite Z.max_r by lia. reflexivity.
  - rewrite Z.max_l by lia. reflexivity.
Qed.

Lemma set_max_reject consumer t request :
  methodId request = TRANSPORT_SET_MAX_INCOMING_BITRATE ->
  (json_find "bitrate" (data request) = None \/
   exists j, json_find "bitrate" (data request) = Some j /\ is_number_unsigned j = false) ->
  HandleRequest consumer t request = Ok (t, [RequestReject "missing bitrate"]).
Proof.
  intros Hm [Hf | (j & Hf & Hj)]; unfold HandleRequest; rewrite Hm, Hf.
  - reflexivity.
  - rewrite Hj. reflexivity.
Qed.

(** C3, as stated, fails: a JSON unsigned integer is a 64-bit value and the
    handler reads it through [get<uint32_t>()].  For [bitrate = 2^32] the
    request is accepted and [maxIncomingBitrate] is 10000, not
    [max(2^32, 10000)]. *)
Lemma C3_counterexample :
  ~ (forall consumer t request v,
       methodId request = TRANSPORT_SET_MAX_INCOMING_BITRATE ->
       json_find "bitrate" (data request) = Some (JNumberUnsigned v) ->
       0 <= v <= uint64_max ->
       exists t' events,
         HandleRequest consumer t request = Ok (t', events) /\
         In RequestAccept events /\
         maxIncomingBitrate t' = Z.max v 10000).
Proof.
  intros H.
  destruct (H c1 t_new (request_bitrate (JNumberUnsigned 4294967296)) 4294967296)
    as (t' & events & Heq & _ & Hmax); [reflexivity | reflexivity | unfold uint64_max; lia |].
  vm_compute in Heq. injection Heq as <- _. vm_compute in Hmax. discriminate.
Qed.

(** C3 (amended): a TRANSPORT_SET_MAX_INCOMING_BITRATE request whose
    [data.bitrate] is an unsigned integer [v] is accepted and leaves
    [maxIncomingBitrate = max(v mod 2^32, 10000)], which is [max(v, 10000)]
    whenever [v] fits 32 bits; a request whose [data.bitrate] is missing or
    is not an unsigned integer is rejected with the reason "missing bitrate"
    and the transport is unchanged. *)
Theorem C3_set_max_incoming_bitrate consumer t request :
  methodId request = TRANSPORT_SET_MAX_INCOMING_BITRATE ->
  (forall v,
     json_find "bitrate" (data request) = Some (JNumberUnsigned v) ->
     exists t',
       HandleRequest consumer t request =
         Ok (t', [Log DEBUG "Transport maximum incoming bitrate set"
                    [maxIncomingBitrate t'];
                  RequestAccept]) /\
       maxIncomingBitrate t' = Z.max (v mod 2 ^ 32) 10000 /\
       (0 <= v <= uint32_max -> maxIncomingBitrate t' = Z.max v 10000)) /\
  ((json_find "bitrate" (data request) = None \/
    exists j, json_find "bitrate" (data request) = Some j /\
              is_number_unsigned j = false) ->
   HandleRequest consumer t request = Ok (t, [RequestReject "missing bitrate"])).
Proof.
  intros Hm. split.
  - intros v Hf. exists (set_maxIncomingBitrate (Z.max (v mod 2 ^ 32) 10000) t).
    split; [| split].
    + rewrite (set_max_accept consumer t request v Hm Hf). reflexivity.
    + reflexivity.
    + intros Hv. cbn. unfold uint32_max in Hv. rewrite Z.mod_small by lia. reflexivity.
  - apply set_max_reject. exact Hm.
Qed.

Lemma C3_witness :
  (exists t',
     HandleRequest c1 t_new (request_bitrate (JNumberUnsigned 500)) =
       Ok (t', [Log DEBUG "Transport maximum incoming bitrate set" [maxIncomingBitrate t'];
                RequestAccept]) /\
     maxIncomingBitrate t' = Z.max (500 mod 2 ^ 32) 10000 /\
     (0 <= 500 <= uint32_max -> maxIncomingBitrate t' = Z.max 500 10000)) /\
  HandleRequest c1 t_new (request_bitrate (JString "500")) =
    Ok (t_new, [RequestReject "missing bitrate"]).
Proof.
  split.
  - apply (C3_set_max_incoming_bitrate c1 t_new (request_bitrate (JNumberUnsigned 500))
             eq_refl).
    reflexivity.
  - apply (C3_set_max_incoming_bitrate c1 t_new (request_bitrate (JString "500")) eq_refl).
    right. exists (JString "500"). split; reflexivity.
Defined.

(** C10: a successful TRANSPORT_SET_MAX_INCOMING_BITRATE request changes
    nothing but [maxIncomingBitrate]: the producers and consumers maps, the
    RTP listener, the header extension ids, the available outgoing bitrate
    (and the remaining members) are the same before and after. *)
Theorem C10_set_max_frame consumer t request t' events :
  methodId request = TRANSPORT_SET_MAX_INCOMING_BITRATE ->
  HandleRequest consumer t request = Ok (t', events) ->
  In RequestAccept events ->
  mapProducers t' = mapProducers t /\
  mapConsumers t' = mapConsumers t /\
  rtpListener t' = rtpListener t /\
  rtpHeaderExtensionIds t' = rtpHeaderExtensionIds t /\
  availableOutgoingBitrate t' = availableOutgoingBitrate t /\
  producers t' = producers t /\
  rtcpTimer t' = rtcpTimer t /\
  IsConnected t' = IsConnected t /\
  id t' = id t /\
  t' = set_maxIncomingBitrate (maxIncomingBitrate t') t.
Proof.
  intros Hm Heq Hacc. unfold HandleRequest in Heq. rewrite Hm in Heq.
  destruct (json_find "bitrate" (data request)) as [j |].
  - destruct (is_number_unsigned j); cbn [negb] in Heq.
    + injection Heq as <- _. repeat split; reflexivity.
    + injection Heq as _ <-. cbn in Hacc. destruct Hacc as [Hacc | []]. discriminate.
  - injection Heq as _ <-. cbn in Hacc. destruct Hacc as [Hacc | []]. discriminate.
Qed.

Lemma C10_witness :
  mapProducers (set_maxIncomingBitrate 10000 t_new) = mapProducers t_new /\
  mapConsumers (set_maxIncomingBitrate 10000 t_new) = mapConsumers t_new /\
  rtpListener (set_maxIncomingBitrate 10000 t_new) = rtpListener t_new /\
  rtpHeaderExtensionIds (set_maxIncomingBitrate 10000 t_new) = rtpHeaderExtensionIds t_new /\
  availableOutgoingBitrate (set_maxIncomingBitrate 10000 t_new) =
    availableOutgoingBitrate t_new /\
  producers (set_maxIncomingBitrate 10000 t_new) = producers t_new /\
  rtcpTimer (set_maxIncomingBitrate 10000 t_new) = rtcpTimer t_new /\
  IsConnected (set_maxIncomingBitrate 10000 t_new) = IsConnected t_new /\
  id (set_maxIncomingBitrate 10000 t_new) = id t_new /\
  set_maxIncomingBitrate 10000 t_new =
    set_maxIncomingBitrate (maxIncomingBitrate (set_maxIncomingBitrate 10000 t_new)) t_new.
Proof.
  apply (C10_set_max_frame c1 t_new (request_bitrate (JNumberUnsigned 500))
           (set_maxIncomingBitrate 10000 t_new)
           [Log DEBUG "Transport maximum incoming bitrate set" [10000]; RequestAccept]).
  - reflexivity.
  - reflexivity.
  - simpl. right. left. reflexivity.
Defined.

(** ** PRODUCER_CLOSE *)

Lemma GetProducerFromRequest_found t request pid p :
  json_find "producerId" (internal request) = Some (JString pid) ->
  mapProducers t !! pid = Some p ->
  GetProducerFromRequest t request = Ok p.
Proof.
  intros Hf Hl. unfold GetProducerFromRequest. rewrite Hf. cbn. rewrite Hl. reflexivity.
Qed.

Lemma GetProducerFromRequest_inv t request p :
  GetProducerFromRequest t request = Ok p ->
  exists pid, json_find "producerId" (internal request) = Some (JString pid) /\
              mapProducers t !! pid = Some p.
Proof.
  unfold GetProducerFromRequest.
  destruct (json_find "producerId" (internal request)) as [j |]; [| discriminate].
  destruct j; cbn; try discriminate.
  destruct (mapProducers t !! s) as [q |] eqn:Hl; [| discriminate].
  intros [= ->]. exists s. split; [reflexivity | exact Hl].
Qed.

Lemma GetProducerFromRequest_throws t request :
  (json_find "producerId" (internal request) = None \/
   (exists j, json_find "producerId" (internal request) = Some j /\ is_string j = false) \/
   (exists pid, json_find "producerId" (internal request) = Some (JString pid) /\
                mapProducers t !! pid = None)) ->
  exists reason, GetProducerFromRequest t request = Throw reason.
Proof.
  unfold GetProducerFromRequest.
  intros [Hf | [(j & Hf & Hj) | (pid & Hf & Hl)]]; rewrite Hf.
  - eexists. reflexivity.
  - rewrite Hj. eexists. reflexivity.
  - cbn. rewrite Hl. eexists. reflexivity.
Qed.

Lemma RemoveProducer_lookup (table : gmap Z Producer) p s q :
  RtpListener.RemoveProducer table p !! s = Some q <-> table !! s = Some q /\ q <> p.
Proof.
  unfold RtpListener.RemoveProducer. rewrite map_lookup_filter_Some. reflexivity.
Qed.

Lemma RemoveProducer_gone (table : gmap Z Producer) p s :
  RtpListener.RemoveProducer table p !! s <> Some p.
Proof.
  intros H. apply RemoveProducer_lookup in H. destruct H as [_ H]. congruence.
Qed.

(** C4: a PRODUCER_CLOSE request naming a registered producer erases it from
    the producers map, removes its entries from the RTP listener, notifies
    the listener once while the producer is alive (the notification precedes
    the deletion), deletes the producer and accepts; a request whose
    [internal.producerId] is missing, is not a string or names no producer is
    rejected and the transport (producers, RTP listener) is untouched, with
    no call to the listener. *)
Theorem C4_producer_close consumer t request :
  methodId request = PRODUCER_CLOSE ->
  keys_consistent t ->
  (forall pid p,
     json_find "producerId" (internal request) = Some (JString pid) ->
     mapProducers t !! pid = Some p ->
     exists t',
       HandleRequest consumer t request =
         Ok (t', [OnTransportProducerClosed p; DeleteProducer p; RequestAccept]) /\
       mapProducers t' = delete pid (mapProducers t) /\
       mapProducers t' !! pid = None /\
       rtpListener t' = RtpListener.RemoveProducer (rtpListener t) p /\
       (forall s, rtpListener t' !! s <> Some p) /\
       (forall s q, q <> p -> rtpListener t !! s = Some q -> rtpListener t' !! s = Some q) /\
       mapConsumers t' = mapConsumers t) /\
  ((json_find "producerId" (internal request) = None \/
    (exists j, json_find "producerId" (internal request) = Some j /\ is_string j = false) \/
    (exists pid, json_find "producerId" (internal request) = Some (JString pid) /\
                 mapProducers t !! pid = None)) ->
   exists reason,
     HandleRequest consumer t request = Ok (t, [RequestReject reason])).
Proof.
  intros Hm Hk. split.
  - intros pid p Hf Hl.
    pose proof (Hk pid p Hl) as Hid.
    exists (set_rtpListener (RtpListener.RemoveProducer (rtpListener t) p)
              (set_mapProducers (delete pid (mapProducers t)) t)).
    unfold HandleRequest. rewrite Hm, (GetProducerFromRequest_found t request pid p Hf Hl).
    rewrite Hid. cbn.
    repeat split.
    + apply lookup_delete_eq.
    + intros s. apply RemoveProducer_gone.
    + intros s q Hq Hs. apply RemoveProducer_lookup. split; assumption.
  - intros Hbad. destruct (GetProducerFromRequest_throws t request Hbad) as [reason Hr].
    exists reason. unfold HandleRequest. rewrite Hm, Hr. reflexivity.
Qed.

Lemma keys_consistent_t_p1 : keys_consistent t_p1.
Proof.
  intros k p H. cbn in H. apply lookup_singleton_Some in H. destruct H as [<- <-].
  reflexivity.
Qed.

Lemma C4_witness :
  (exists t',
     HandleRequest c1 t_p1 (request_producer_close "p1") =
       Ok (t', [OnTransportProducerClosed p1; DeleteProducer p1; RequestAccept]) /\
     mapProducers t' = delete "p1" (mapProducers t_p1) /\
     mapProducers t' !! "p1" = None /\
     rtpListener t' = RtpListener.RemoveProducer (rtpListener t_p1) p1 /\
     (forall s, rtpListener t' !! s <> Some p1) /\
     (forall s q, q <> p1 -> rtpListener t_p1 !! s = Some q -> rtpListener t' !! s = Some q) /\
     mapConsumers t' = mapConsumers t_p1) /\
  (exists reason,
     HandleRequest c1 t_p1 (request_producer_close "p9") = Ok (t_p1, [RequestReject reason])).
Proof.
  split.
  - apply (proj1 (C4_producer_close c1 t_p1 (request_producer_close "p1") eq_refl
                    keys_consistent_t_p1) "p1" p1); reflexivity.
  - apply (C4_producer_close c1 t_p1 (request_producer_close "p9") eq_refl
             keys_consistent_t_p1).
    right. right. exists "p9". split; reflexivity.
Defined.

(** ** CONSUMER_CLOSE *)

(** C8, at a failing input: the transport holds the consumers "c1" and "c2",
    the request names "c1", and the name [consumer] of the handler denotes
    [c2].  The request is accepted, the listener is told that [c2] closed,
    [c2] is deleted and erased, and "c1" stays in the consumers map. *)
Theorem C8_consumer_close_wrong_variable :
  exists t',
    GetConsumerFromRequest t_c12 (request_consumer_close "c1") = Ok c1 /\
    HandleRequest c2 t_c12 (request_consumer_close "c1") =
      Ok (t', [OnTransportConsumerClosed c2; DeleteConsumer c2; RequestAccept]) /\
    mapConsumers t' !! "c1" = Some c1 /\
    mapConsumers t' !! "c2" = None.
Proof.
  eexists. split; [reflexivity |]. split; [reflexivity |]. split; reflexivity.
Qed.

(** The consumer found by the lookup decides between accept and reject and
    nothing else: what the handler closes is [consumer]. *)
Lemma consumer_close_ignores_lookup consumer t request found :
  methodId request = CONSUMER_CLOSE ->
  GetConsumerFromRequest t request = Ok found ->
  HandleRequest consumer t request =
    Ok (set_mapConsumers (delete (consumer_id consumer) (mapConsumers t)) t,
        [OnTransportConsumerClosed consumer; DeleteConsumer consumer; RequestAccept]).
Proof.
  intros Hm Hg. unfold HandleRequest. rewrite Hm, Hg. reflexivity.
Qed.

(** ** HandleConsumer *)

(** C6, as stated, fails: on a connected transport the key frame is asked
    for an audio consumer as well. *)
Lemma C6_counterexample :
  ~ (forall t c,
       key_frame_requested (HandleConsumer t c).2 c <->
       IsConnected t = true /\ kind c = VIDEO).
Proof.
  intros H. destruct (H t_new c2) as [Hreq _].
  destruct Hreq as [_ Hkind].
  - left. cbn. left. reflexivity.
  - discriminate Hkind.
Qed.

(** C6 (amended): [HandleConsumer] files the consumer under its id in the
    consumers map and changes nothing else; a key frame is asked for the
    consumer, with no SSRC, if and only if the transport is connected at that
    moment, whatever the kind of the consumer; the kind only decides whether
    the debug line is written.  Nothing is asked on a disconnected
    transport. *)
Theorem C6_handle_consumer t c :
  (HandleConsumer t c).1 = set_mapConsumers (<[consumer_id c := c]> (mapConsumers t)) t /\
  mapConsumers (HandleConsumer t c).1 !! consumer_id c = Some c /\
  (key_frame_requested (HandleConsumer t c).2 c <-> IsConnected t = true) /\
  (In (Log DEBUG "requesting key frame for new Consumer since Transport already connected" [])
      (HandleConsumer t c).2 <->
   IsConnected t = true /\ kind c = VIDEO) /\
  (IsConnected t = false -> (HandleConsumer t c).2 = []).
Proof.
  unfold HandleConsumer, key_frame_requested. cbn [IsConnected set_mapConsumers].
  destruct (IsConnected t) eqn:Hc; cbn [fst snd].
  - split; [reflexivity |]. split; [apply lookup_insert_eq |].
    split; [| split].
    + split; [reflexivity |]. intros _. left. apply in_or_app. right. left. reflexivity.
    + destruct (kind c); cbn.
      * split; [intros [H | []]; discriminate H | intros [_ H]; discriminate H].
      * split; [intros _; split; reflexivity | intros _; left; reflexivity].
    + discriminate.
  - split; [reflexivity |]. split; [apply lookup_insert_eq |].
    split; [| split].
    + split; [intros [[] | []] | discriminate].
    + split; [intros [] | intros [H _]; discriminate H].
    + reflexivity.
Qed.

(** ** ReceiveRtcpPacket *)

Lemma receive_rr_hits t pre rest :
  Forall (fun x => GetStartedConsumer t (rr_ssrc x) <> None) pre ->
  receive_rr t (pre ++ rest) = flat_map (rr_delivery t) pre ++ receive_rr t rest.
Proof.
  induction 1 as [| x pre Hx _ IH]; [reflexivity |].
  cbn [app receive_rr flat_map]. unfold rr_delivery at 1.
  destruct (GetStartedConsumer t (rr_ssrc x)) as [consumer |]; [| congruence].
  cbn. rewrite IH. reflexivity.
Qed.

Lemma receive_sr_app t pre rest :
  receive_sr t (pre ++ rest) = receive_sr t pre ++ receive_sr t rest.
Proof.
  induction pre as [| x pre IH]; [reflexivity |].
  cbn [app receive_sr]. unfold RtpListener.GetProducer.
  destruct (rtpListener t !! sr_ssrc x); cbn; rewrite IH; reflexivity.
Qed.

Lemma receive_sr_outcomes t reports :
  receive_sr t reports = map (sr_outcome t) reports.
Proof.
  induction reports as [| x reports IH]; [reflexivity |].
  cbn [receive_sr map]. unfold sr_outcome at 1, RtpListener.GetProducer.
  destruct (rtpListener t !! sr_ssrc x); rewrite IH; reflexivity.
Qed.

(** C2: in a Receiver Report the reports are handed over in order up to the
    first one whose SSRC has no started consumer; that one is logged and
    nothing of the rest of the packet is processed.  In a Sender Report a
    report whose SSRC has no producer in the RTP listener is logged and the
    reports after it are processed as if it were not there. *)
Theorem C2_rr_breaks_sr_continues t :
  (forall pre r post,
     Forall (fun x => GetStartedConsumer t (rr_ssrc x) <> None) pre ->
     GetStartedConsumer t (rr_ssrc r) = None ->
     ReceiveRtcpPacket t (RR (pre ++ r :: post)) =
       (t, flat_map (rr_delivery t) pre ++
           [Log WARN "no Consumer found for received Receiver Report" [rr_ssrc r]])) /\
  (forall pre r post,
     rtpListener t !! sr_ssrc r = None ->
     ReceiveRtcpPacket t (SR (pre ++ r :: post)) =
       (t, (ReceiveRtcpPacket t (SR pre)).2 ++
           Log WARN "no Producer found for received Sender Report" [sr_ssrc r] ::
           (ReceiveRtcpPacket t (SR post)).2) /\
     (ReceiveRtcpPacket t (SR post)).2 = map (sr_outcome t) post).
Proof.
  split.
  - intros pre r post Hpre Hr. cbn [ReceiveRtcpPacket].
    rewrite (receive_rr_hits t pre (r :: post) Hpre). cbn [receive_rr].
    rewrite Hr. reflexivity.
  - intros pre r post Hr. cbn [ReceiveRtcpPacket snd]. split.
    + rewrite receive_sr_app. cbn [receive_sr]. unfold RtpListener.GetProducer.
      rewrite Hr. reflexivity.
    + apply receive_sr_outcomes.
Qed.

Lemma C2_witness :
  ReceiveRtcpPacket t_p1c1 (RR ([mkRR 200 [1]] ++ mkRR 300 [2] :: [mkRR 200 [3]])) =
    (t_p1c1, flat_map (rr_delivery t_p1c1) [mkRR 200 [1]] ++
             [Log WARN "no Consumer found for received Receiver Report" [300]]) /\
  ReceiveRtcpPacket t_p1c1 (SR ([mkSR 100 [1]] ++ mkSR 999 [2] :: [mkSR 100 [3]])) =
    (t_p1c1, (ReceiveRtcpPacket t_p1c1 (SR [mkSR 100 [1]])).2 ++
             Log WARN "no Producer found for received Sender Report" [999] ::
             (ReceiveRtcpPacket t_p1c1 (SR [mkSR 100 [3]])).2) /\
  (ReceiveRtcpPacket t_p1c1 (SR [mkSR 100 [3]])).2 = map (sr_outcome t_p1c1) [mkSR 100 [3]].
Proof.
  split.
  - apply (proj1 (C2_rr_breaks_sr_continues t_p1c1) [mkRR 200 [1]] (mkRR 300 [2])
             [mkRR 200 [3]]).
    + constructor; [vm_compute; discriminate | constructor].
    + reflexivity.
  - apply (proj2 (C2_rr_breaks_sr_continues t_p1c1) [mkSR 100 [1]] (mkSR 999 [2])
             [mkSR 100 [3]]).
    reflexivity.
Defined.

(** Scenario S6 of the spec: the second report is not delivered. *)
Example rr_unknown_then_known :
  ReceiveRtcpPacket t_p1c1 (RR [mkRR 300 []; mkRR 200 []]) =
    (t_p1c1, [Log WARN "no Consumer found for received Receiver Report" [300]]).
Proof. reflexivity. Qed.

Example sr_unknown_then_known :
  ReceiveRtcpPacket t_p1c1 (SR [mkSR 999 []; mkSR 100 []]) =
    (t_p1c1, [Log WARN "no Producer found for received Sender Report" [999];
              ProducerReceiveRtcpSenderReport p1 (mkSR 100 [])]).
Proof. reflexivity. Qed.

(** ** Exceptional requests and packets *)

Lemma GetConsumerFromRequest_exceptional t request :
  (forall cid, json_find "consumerId" (internal request) = Some (JString cid) ->
               mapConsumers t !! cid = None) ->
  exists reason, GetConsumerFromRequest t request = Throw reason.
Proof.
  intros H. unfold GetConsumerFromRequest.
  destruct (json_find "consumerId" (internal request)) as [j |]; [| eexists; reflexivity].
  destruct j; cbn; try (eexists; reflexivity).
  rewrite (H s eq_refl). eexists. reflexivity.
Qed.

Lemma GetProducerFromRequest_exceptional t request :
  (forall pid, json_find "producerId" (internal request) = Some (JString pid) ->
               mapProducers t !! pid = None) ->
  exists reason, GetProducerFromRequest t request = Throw reason.
Proof.
  intros H. unfold GetProducerFromRequest.
  destruct (json_find "producerId" (internal request)) as [j |]; [| eexists; reflexivity].
  destruct j; cbn; try (eexists; reflexivity).
  rewrite (H s eq_refl). eexists. reflexivity.
Qed.

Lemma HandleRequest_returns consumer t request :
  exists t' events,
    HandleRequest consumer t request = Ok (t', events) /\
    length (List.filter is_response events) = 1%nat.
Proof.
  unfold HandleRequest. destruct (methodId request).
  - destruct (json_find "bitrate" (data request)) as [j |].
    + destruct (is_number_unsigned j); cbn [negb]; eexists; eexists; split; reflexivity.
    + eexists; eexists; split; reflexivity.
  - destruct (GetProducerFromRequest t request); eexists; eexists; split; reflexivity.
  - destruct (GetConsumerFromRequest t request); eexists; eexists; split; reflexivity.
  - eexists; eexists; split; reflexivity.
Qed.

Lemma HandleRequest_exceptional consumer t request :
  request_exceptional t request ->
  exists reason, HandleRequest consumer t request = Ok (t, [RequestReject reason]) \/
                 HandleRequest consumer t request =
                   Ok (t, [Log ERROR "unknown method" []; RequestReject reason]).
Proof.
  unfold request_exceptional, HandleRequest. destruct (methodId request); intros H.
  - destruct (json_find "bitrate" (data request)) as [j |]; [| eexists; left; reflexivity].
    destruct j; cbn; try (eexists; left; reflexivity).
    exfalso. apply (H n). reflexivity.
  - destruct (GetProducerFromRequest_exceptional t request H) as [reason ->].
    exists reason. left. reflexivity.
  - destruct (GetConsumerFromRequest_exceptional t request H) as [reason ->].
    exists reason. left. reflexivity.
  - eexists. right. reflexivity.
Qed.

Lemma receive_rr_warns t reports :
  Exists (fun r => GetStartedConsumer t (rr_ssrc r) = None) reports ->
  existsb is_warning (receive_rr t reports) = true.
Proof.
  induction reports as [| x reports IH]; intros H; [inversion H |].
  cbn [receive_rr].
  destruct (GetStartedConsumer t (rr_ssrc x)) as [consumer |] eqn:Hx; [| reflexivity].
  cbn. apply IH. inversion H as [? ? Hhd | ? ? Htl]; subst; [congruence | exact Htl].
Qed.

Lemma receive_sr_warns t reports :
  Exists (fun r => rtpListener t !! sr_ssrc r = None) reports ->
  existsb is_warning (receive_sr t reports) = true.
Proof.
  induction reports as [| x reports IH]; intros H; [inversion H |].
  cbn [receive_sr]. unfold RtpListener.GetProducer.
  destruct (rtpListener t !! sr_ssrc x) as [producer |] eqn:Hx; [| reflexivity].
  cbn. apply IH. inversion H as [? ? Hhd | ? ? Htl]; subst; [congruence | exact Htl].
Qed.

Lemma receive_sdes_warns t chunks :
  Exists (fun c => rtpListener t !! chunk_ssrc c = None) chunks ->
  existsb is_warning (receive_sdes t chunks) = true.
Proof.
  induction chunks as [| x chunks IH]; intros H; [inversion H |].
  cbn [receive_sdes]. unfold RtpListener.GetProducer.
  destruct (rtpListener t !! chunk_ssrc x) as [producer |] eqn:Hx; [| reflexivity].
  apply IH. inversion H as [? ? Hhd | ? ? Htl]; subst; [congruence | exact Htl].
Qed.

Lemma ReceiveRtcpPacket_exceptional t packet :
  rtcp_exceptional t packet ->
  existsb is_warning (ReceiveRtcpPacket t packet).2 = true.
Proof.
  destruct packet as [reports | reports | chunks | | message s | message s | type];
    cbn [rtcp_exceptional ReceiveRtcpPacket].
  - apply receive_rr_warns.
  - apply receive_sr_warns.
  - apply receive_sdes_warns.
  - intros [].
  - destruct message as [| | [bitrate |] | n]; intros H;
      try rewrite H; try reflexivity; destruct H.
  - destruct message as [lost | n]; intros H.
    + rewrite H. reflexivity.
    + destruct (GetStartedConsumer t s); reflexivity.
  - reflexivity.
Qed.

(** A request with a missing or mistyped field, an unknown id or an unknown
    method is rejected and leaves the transport as it was; an RTCP packet of
    unknown type or subtype, or with an SSRC without peer, leaves a warning
    in the log. *)
Lemma exceptional_conditions_are_reported consumer t :
  (forall request,
     request_exceptional t request ->
     exists events reason,
       HandleRequest consumer t request = Ok (t, events) /\
       In (RequestReject reason) events /\
       ~ In RequestAccept events) /\
  (forall packet,
     rtcp_exceptional t packet ->
     existsb is_warning (ReceiveRtcpPacket t packet).2 = true).
Proof.
  split.
  - intros request Hex.
    destruct (HandleRequest_exceptional consumer t request Hex) as [reason [H | H]].
    + exists [RequestReject reason], reason. split; [exact H |]. split; [left; reflexivity |].
      intros [Hin | []]. discriminate Hin.
    + exists [Log ERROR "unknown method" []; RequestReject reason], reason.
      split; [exact H |]. split; [right; left; reflexivity |].
      intros [Hin | [Hin | []]]; discriminate Hin.
  - intros packet. apply ReceiveRtcpPacket_exceptional.
Qed.

(** *** Two CONSUMER_CLOSE requests in a row *)

Lemma consumer_close_accepted consumer t cid found :
  mapConsumers t !! cid = Some found ->
  HandleRequest consumer t (request_consumer_close cid) =
    Ok (set_mapConsumers (delete (consumer_id consumer) (mapConsumers t)) t,
        [OnTransportConsumerClosed consumer; DeleteConsumer consumer; RequestAccept]).
Proof.
  intros Hl. unfold HandleRequest, GetConsumerFromRequest. cbn. rewrite Hl. reflexivity.
Qed.

Lemma consumer_close_twice consumer t cid found :
  mapConsumers t !! cid = Some found ->
  consumer_id consumer <> cid ->
  exists t1 t2,
    HandleRequest consumer t (request_consumer_close cid) =
      Ok (t1, [OnTransportConsumerClosed consumer; DeleteConsumer consumer; RequestAccept]) /\
    HandleRequest consumer t1 (request_consumer_close cid) =
      Ok (t2, [OnTransportConsumerClosed consumer; DeleteConsumer consumer; RequestAccept]).
Proof.
  intros Hl Hne. eexists. eexists. split.
  - apply (consumer_close_accepted consumer t cid found Hl).
  - apply (consumer_close_accepted consumer _ cid found).
    cbn. rewrite lookup_delete_ne by exact Hne. exact Hl.
Qed.

Lemma lifetime_deleted_twice c :
  lifetime_ok []
    ([OnTransportConsumerClosed c; DeleteConsumer c; RequestAccept] ++
     [OnTransportConsumerClosed c; DeleteConsumer c; RequestAccept]) = false.
Proof.
  cbn. unfold is_deleted. cbn. rewrite bool_decide_eq_true_2 by reflexivity. reflexivity.
Qed.

(** C9, at a failing input: the transport holds the consumers "c1" and "c2".
    Whatever consumer the name [consumer] of the CONSUMER_CLOSE case denotes,
    one of the two ids can be closed twice in a row: both requests are
    accepted, and the second one notifies the listener about, and deletes, the
    object that the first one deleted.  The first request alone keeps to
    the lifetime of the objects. *)
Theorem C9_repeated_consumer_close_deletes_twice consumer :
  exists cid t1 t2 events,
    HandleRequest consumer t_c12 (request_consumer_close cid) = Ok (t1, events) /\
    HandleRequest consumer t1 (request_consumer_close cid) = Ok (t2, events) /\
    events = [OnTransportConsumerClosed consumer; DeleteConsumer consumer; RequestAccept] /\
    lifetime_ok [] events = true /\
    lifetime_ok [] (events ++ events) = false.
Proof.
  destruct (decide (consumer_id consumer = "c1")) as [Heq | Hne].
  - destruct (consumer_close_twice consumer t_c12 "c2" c2) as (t1 & t2 & H1 & H2).
    + reflexivity.
    + rewrite Heq. discriminate.
    + exists "c2", t1, t2. eexists. split; [exact H1 |]. split; [exact H2 |].
      split; [reflexivity |]. split; [reflexivity | apply lifetime_deleted_twice].
  - destruct (consumer_close_twice consumer t_c12 "c1" c1) as (t1 & t2 & H1 & H2).
    + reflexivity.
    + exact Hne.
    + exists "c1", t1, t2. eexists. split; [exact H1 |]. split; [exact H2 |].
      split; [reflexivity |]. split; [reflexivity | apply lifetime_deleted_twice].
Qed.

(** With [consumer] denoting [c2]: the request for "c1", twice. *)
Example repeated_consumer_close_c2 :
  exists t1 t2,
    HandleRequest c2 t_c12 (request_consumer_close "c1") =
      Ok (t1, [OnTransportConsumerClosed c2; DeleteConsumer c2; RequestAccept]) /\
    HandleRequest c2 t1 (request_consumer_close "c1") =
      Ok (t2, [OnTransportConsumerClosed c2; DeleteConsumer c2; RequestAccept]) /\
    mapConsumers t2 !! "c1" = Some c1.
Proof. eexists. eexists. split; [reflexivity |]. split; reflexivity. Qed.

(** ** Producers and the RTP listener *)

Lemma add_ssrcs_in p ssrcs (table : gmap Z Producer) s :
  In s ssrcs -> RtpListener.add_ssrcs p ssrcs table !! s = Some p.
Proof.
  induction ssrcs as [| s0 ssrcs IH]; cbn [RtpListener.add_ssrcs foldr]; intros Hin.
  - destruct Hin.
  - fold (RtpListener.add_ssrcs p ssrcs table).
    destruct (decide (s0 = s)) as [-> | Hne].
    + apply lookup_insert_eq.
    + rewrite lookup_insert_ne by exact Hne. apply IH.
      destruct Hin as [Heq | Hin]; [congruence | exact Hin].
Qed.

Lemma add_ssrcs_not_in p ssrcs (table : gmap Z Producer) s :
  ~ In s ssrcs -> RtpListener.add_ssrcs p ssrcs table !! s = table !! s.
Proof.
  induction ssrcs as [| s0 ssrcs IH]; cbn [RtpListener.add_ssrcs foldr]; intros Hin.
  - reflexivity.
  - fold (RtpListener.add_ssrcs p ssrcs table).
    rewrite lookup_insert_ne.
    + apply IH. intros H. apply Hin. right. exact H.
    + intros ->. apply Hin. left. reflexivity.
Qed.

Lemma no_collision (table : gmap Z Producer) p ssrcs s q :
  existsb (RtpListener.collides table p) ssrcs = false ->
  In s ssrcs -> table !! s = Some q -> q = p.
Proof.
  intros Hex Hin Hs.
  destruct (decide (q = p)) as [Heq | Hne]; [exact Heq | exfalso].
  assert (existsb (RtpListener.collides table p) ssrcs = true) as Habs.
  { apply existsb_exists. exists s. split; [exact Hin |].
    unfold RtpListener.collides. rewrite Hs.
    rewrite bool_decide_eq_false_2 by exact Hne. reflexivity. }
  congruence.
Qed.

Lemma AddProducer_spec (table table' : gmap Z Producer) p :
  RtpListener.AddProducer table p = Ok table' ->
  (forall s, In s (RtpListener.primary_ssrcs p) -> table' !! s = Some p) /\
  (forall s q, table !! s = Some q -> table' !! s = Some q).
Proof.
  unfold RtpListener.AddProducer.
  destruct (existsb (RtpListener.collides table p) (RtpListener.primary_ssrcs p)) eqn:Hex;
    [discriminate |].
  intros [= <-]. split.
  - intros s Hin. apply add_ssrcs_in. exact Hin.
  - intros s q Hs.
    destruct (in_dec Z.eq_dec s (RtpListener.primary_ssrcs p)) as [Hin | Hin].
    + rewrite (add_ssrcs_in p _ table s Hin).
      rewrite (no_collision table p _ s q Hex Hin Hs). reflexivity.
    + rewrite (add_ssrcs_not_in p _ table s Hin). exact Hs.
Qed.

Lemma HandleProducer_inv t producer t' :
  HandleProducer t producer = Ok t' ->
  exists listener,
    RtpListener.AddProducer (rtpListener t) producer = Ok listener /\
    mapProducers t' = <[producer_id producer := producer]> (mapProducers t) /\
    rtpListener t' = listener.
Proof.
  unfold HandleProducer.
  destruct (RtpListener.AddProducer (rtpListener t) producer) as [listener | e];
    [| discriminate].
  intros [= <-]. exists listener. repeat split.
Qed.

Lemma producer_close_inv consumer t request t' events :
  methodId request = PRODUCER_CLOSE ->
  HandleRequest consumer t request = Ok (t', events) ->
  t' = t \/
  exists p, GetProducerFromRequest t request = Ok p /\
            mapProducers t' = delete (producer_id p) (mapProducers t) /\
            rtpListener t' = RtpListener.RemoveProducer (rtpListener t) p.
Proof.
  intros Hm. unfold HandleRequest. rewrite Hm.
  destruct (GetProducerFromRequest t request) as [p | e].
  - intros [= <- _]. right. exists p. repeat split.
  - intros [= <- _]. left. reflexivity.
Qed.

Lemma step_preserves consumer t t' :
  producer_step consumer t t' ->
  keys_consistent t /\ ssrcs_registered t ->
  keys_consistent t' /\ ssrcs_registered t'.
Proof.
  intros Hstep [Hk Hs].
  destruct Hstep as [t producer t' Hp | t request t' events Hm Hr | t t' events Hc].
  - destruct (HandleProducer_inv t producer t' Hp) as (listener & Hadd & Hmap & Hl).
    destruct (AddProducer_spec _ _ _ Hadd) as [Hnew Hold]. split.
    + intros k p. rewrite Hmap. rewrite lookup_insert.
      case_decide as Hkey; [intros [= <-]; exact Hkey | apply Hk].
    + intros k p s. rewrite Hmap, Hl. rewrite lookup_insert.
      case_decide as Hkey.
      * intros [= <-] Hin. apply Hnew. exact Hin.
      * intros Hlook Hin. apply Hold. exact (Hs k p s Hlook Hin).
  - destruct (producer_close_inv consumer t request t' events Hm Hr)
      as [-> | (p & Hget & Hmap & Hl)]; [split; assumption |].
    split.
    + intros k q. rewrite Hmap. rewrite lookup_delete.
      case_decide; [discriminate | apply Hk].
    + intros k q s. rewrite Hmap, Hl. rewrite lookup_delete.
      case_decide as Hkey; [discriminate |].
      intros Hlook Hin. apply RemoveProducer_lookup. split; [exact (Hs k q s Hlook Hin) |].
      intros ->. apply Hkey. exact (Hk k p Hlook).
  - unfold Close in Hc. injection Hc as <- _. split.
    + intros k p. cbn. rewrite lookup_empty. discriminate.
    + intros k p s. cbn. rewrite lookup_empty. discriminate.
Qed.

Lemma reachable_invariant consumer t :
  reachable consumer t -> keys_consistent t /\ ssrcs_registered t.
Proof.
  induction 1 as [id timer connected | t t' _ IH Hstep].
  - split.
    + intros k p. cbn. rewrite lookup_empty. discriminate.
    + intros k p s. cbn. rewrite lookup_empty. discriminate.
  - exact (step_preserves consumer t t' Hstep IH).
Qed.

Lemma HandleProducer_t_new_p1 : HandleProducer t_new p1 = Ok t_p1.
Proof. vm_compute. reflexivity. Qed.

Lemma reachable_t_p1 consumer : reachable consumer t_p1.
Proof.
  apply (reachable_step consumer t_new t_p1).
  - apply reachable_new.
  - apply (step_HandleProducer consumer t_new p1 t_p1). exact HandleProducer_t_new_p1.
Qed.

(** C1, as stated, fails: [Close()] clears the producers map and does not
    touch the RTP listener.  After [HandleProducer p1] and [Close()] the
    listener still resolves SSRC 100 to [p1], and the producers map is
    empty. *)
Lemma C1_counterexample :
  ~ (forall consumer t,
       reachable consumer t -> ssrcs_registered t /\ no_stale_entry t).
Proof.
  intros H.
  assert (reachable c1 (Close t_p1).1) as Hreach.
  { apply (reachable_step c1 t_p1).
    - apply reachable_t_p1.
    - apply (step_Close c1 t_p1 (Close t_p1).1 (Close t_p1).2).
      destruct (Close t_p1). reflexivity. }
  destruct (H c1 _ Hreach) as [_ Hstale].
  destruct (Hstale 100 p1) as [k Hk]; [reflexivity |].
  cbn in Hk. rewrite lookup_empty in Hk. discriminate.
Qed.

(** C1 (amended): in every state reachable through [HandleProducer],
    PRODUCER_CLOSE requests and [Close()], every producer of the producers
    map is filed under its id and each primary SSRC of its RTP parameters
    resolves to it in the RTP listener (a map, hence one entry per SSRC); an
    accepted PRODUCER_CLOSE request removes the producer from the map and, in
    the same step, every entry of the RTP listener that resolves to it;
    [Close()] empties the producers map and leaves the RTP listener as it
    is. *)
Theorem C1_producers_registered consumer t :
  reachable consumer t ->
  keys_consistent t /\
  ssrcs_registered t /\
  (forall request p t' events,
     methodId request = PRODUCER_CLOSE ->
     GetProducerFromRequest t request = Ok p ->
     HandleRequest consumer t request = Ok (t', events) ->
     (forall k, mapProducers t' !! k <> Some p) /\
     (forall s, rtpListener t' !! s <> Some p)) /\
  mapProducers (Close t).1 = ∅ /\
  rtpListener (Close t).1 = rtpListener t.
Proof.
  intros Hreach. destruct (reachable_invariant consumer t Hreach) as [Hk Hs].
  split; [exact Hk |]. split; [exact Hs |]. split; [| split; reflexivity].
  intros request p t' events Hm Hget Hr.
  unfold HandleRequest in Hr. rewrite Hm, Hget in Hr. injection Hr as <- _. cbn. split.
  - intros k. rewrite lookup_delete. case_decide as Hkey; [discriminate |].
    intros Hlook. apply Hkey. exact (Hk k p Hlook).
  - intros s. apply RemoveProducer_gone.
Qed.

Lemma C1_witness :
  keys_consistent t_p1 /\
  ssrcs_registered t_p1 /\
  (forall request p t' events,
     methodId request = PRODUCER_CLOSE ->
     GetProducerFromRequest t_p1 request = Ok p ->
     HandleRequest c1 t_p1 request = Ok (t', events) ->
     (forall k, mapProducers t' !! k <> Some p) /\
     (forall s, rtpListener t' !! s <> Some p)) /\
  mapProducers (Close t_p1).1 = ∅ /\
  rtpListener (Close t_p1).1 = rtpListener t_p1.
Proof.
  apply (C1_producers_registered c1 t_p1).
  apply (reachable_step c1 t_new t_p1).
  - apply reachable_new.
  - apply (step_HandleProducer c1 t_new p1 t_p1). vm_compute. reflexivity.
Defined.

(** ** SendRtcp *)

Section SendRtcpProperties.

Variable GetSize : CompoundPacket -> Z.
Variable BufferSize : Z.
Variable Consumer_GetRtcp : Consumer -> CompoundPacket -> Z -> CompoundPacket.
Variable Producer_GetRtcp : Producer -> CompoundPacket -> Z -> CompoundPacket.

Let consumers_pass := send_consumers GetSize BufferSize Consumer_GetRtcp.
Let producers_pass := collect_producers Producer_GetRtcp.
Let warn := too_big GetSize.

Lemma send_consumers_fit now kvs acc packet :
  emitted (consumers_pass now kvs acc).1 packet -> GetSize packet <= BufferSize.
Proof.
  subst consumers_pass. revert acc.
  induction kvs as [| kv kvs IH]; intros acc; cbn [send_consumers fst].
  - intros [[] | []].
  - destruct (HasSenderReport (Consumer_GetRtcp kv.2 acc now)); [| apply IH].
    destruct (Z.gtb_spec (GetSize (Consumer_GetRtcp kv.2 acc now)) BufferSize) as [Hgt | Hle].
    + cbn. intros [[H | []] | [H | []]]; discriminate H.
    + cbn [fst]. intros [[H | [H | H]] | [H | [H | H]]]; try discriminate H.
      * injection H as <-. exact Hle.
      * apply (IH []). left. exact H.
      * injection H as <-. exact Hle.
      * apply (IH []). right. exact H.
Qed.

Lemma send_consumers_abort now pre kv post acc0 events acc :
  consumers_pass now pre acc0 = (events, Some acc) ->
  HasSenderReport (Consumer_GetRtcp kv.2 acc now) = true ->
  GetSize (Consumer_GetRtcp kv.2 acc now) > BufferSize ->
  consumers_pass now (pre ++ kv :: post) acc0 =
    (events ++ [warn (Consumer_GetRtcp kv.2 acc now)], None).
Proof.
  subst consumers_pass warn. revert acc0 events.
  induction pre as [| x pre IH]; intros acc0 events; cbn [send_consumers app].
  - intros [= <- <-] Hsr Hbig. rewrite Hsr.
    destruct (Z.gtb_spec (GetSize (Consumer_GetRtcp kv.2 acc0 now)) BufferSize); [| lia].
    reflexivity.
  - destruct (HasSenderReport (Consumer_GetRtcp x.2 acc0 now)); [| apply IH].
    destruct (GetSize (Consumer_GetRtcp x.2 acc0 now) >? BufferSize); [discriminate |].
    destruct (send_consumers GetSize BufferSize Consumer_GetRtcp now pre [])
      as [ev r] eqn:Hpre.
    cbn [fst snd]. intros [= <- ->] Hsr Hbig.
    rewrite (IH [] ev Hpre Hsr Hbig). reflexivity.
Qed.

(** C7: whatever [SendRtcp] serializes and sends fits the buffer.  When the
    compound is due after a consumer (it has a sender report) and is larger
    than [BufferSize], or is due after the producers (it has a receiver
    report) and is larger than [BufferSize], [SendRtcp] writes the warning
    "cannot send RTCP packet, size too big" with the size of the compound
    and returns: the trace is what was emitted before followed by that one
    line of level WARN, so the oversized compound and everything after it is
    not emitted, in whole or in part.  Every call starts from an empty
    compound. *)
Theorem C7_oversized_compound_dropped t now :
  (forall packet,
     emitted (SendRtcp GetSize BufferSize Consumer_GetRtcp Producer_GetRtcp t now) packet ->
     GetSize packet <= BufferSize) /\
  (forall pre kv post events acc,
     map_to_list (mapConsumers t) = pre ++ kv :: post ->
     consumers_pass now pre [] = (events, Some acc) ->
     HasSenderReport (Consumer_GetRtcp kv.2 acc now) = true ->
     GetSize (Consumer_GetRtcp kv.2 acc now) > BufferSize ->
     SendRtcp GetSize BufferSize Consumer_GetRtcp Producer_GetRtcp t now =
       events ++
       [Log WARN "cannot send RTCP packet, size too big"
          [GetSize (Consumer_GetRtcp kv.2 acc now)]]) /\
  (forall events acc,
     consumers_pass now (map_to_list (mapConsumers t)) [] = (events, Some acc) ->
     GetReceiverReportCount (producers_pass now (producers t) acc) <> 0 ->
     GetSize (producers_pass now (producers t) acc) > BufferSize ->
     SendRtcp GetSize BufferSize Consumer_GetRtcp Producer_GetRtcp t now =
       events ++
       [Log WARN "cannot send RTCP packet, size too big"
          [GetSize (producers_pass now (producers t) acc)]]).
Proof.
  split; [| split].
  - intros packet. unfold SendRtcp.
    pose proof (send_consumers_fit now (map_to_list (mapConsumers t)) [] packet) as Hfit.
    subst consumers_pass.
    destruct (send_consumers GetSize BufferSize Consumer_GetRtcp now
                (map_to_list (mapConsumers t)) []) as [ev [acc |]]; cbn [fst snd] in *.
    + unfold emitted. rewrite !in_app_iff. unfold send_receiver_reports.
      destruct (GetReceiverReportCount (collect_producers Producer_GetRtcp now (producers t) acc) =? 0);
        cbn [negb].
      * intros [[H | []] | [H | []]]; apply Hfit; [left | right]; exact H.
      * destruct (Z.gtb_spec
                    (GetSize (collect_producers Producer_GetRtcp now (producers t) acc))
                    BufferSize) as [Hgt | Hle].
        -- intros [[H | [H | []]] | [H | [H | []]]]; try discriminate H;
             apply Hfit; [left | right]; exact H.
        -- intros [[H | [H | [H | []]]] | [H | [H | [H | []]]]]; try discriminate H;
             try (injection H as <-; exact Hle); apply Hfit; [left | right]; exact H.
    + exact Hfit.
  - intros pre kv post events acc Hlist Hpre Hsr Hbig. unfold SendRtcp. rewrite Hlist.
    fold consumers_pass.
    rewrite (send_consumers_abort now pre kv post [] events acc Hpre Hsr Hbig). reflexivity.
  - intros events acc Hpass Hcount Hbig. unfold SendRtcp. fold consumers_pass.
    rewrite Hpass. cbn [fst snd]. unfold send_receiver_reports. fold producers_pass.
    destruct (Z.eqb_spec (GetReceiverReportCount (producers_pass now (producers t) acc)) 0);
      [contradiction |].
    destruct (Z.gtb_spec (GetSize (producers_pass now (producers t) acc)) BufferSize); [| lia].
    reflexivity.
Qed.

End SendRtcpProperties.

Lemma C7_witness :
  SendRtcp size_100 buffer_150 consumer_rtcp producer_rtcp t_p1c1 0 =
    [] ++
    [Log WARN "cannot send RTCP packet, size too big"
       [size_100 (consumer_rtcp c1 [] 0)]] /\
  SendRtcp size_100 buffer_150 consumer_rtcp producer_rtcp t_rr 0 =
    [] ++
    [Log WARN "cannot send RTCP packet, size too big"
       [size_100 (collect_producers producer_rtcp 0 (producers t_rr) [])]] /\
  size_100 (collect_producers producer_rtcp 0 (producers t_rr) []) <= 1000.
Proof.
  split; [| split].
  - apply (proj1 (proj2 (C7_oversized_compound_dropped size_100 buffer_150 consumer_rtcp
                           producer_rtcp t_p1c1 0)) [] ("c1", c1) [] [] []).
    + reflexivity.
    + reflexivity.
    + reflexivity.
    + reflexivity.
  - apply (proj2 (proj2 (C7_oversized_compound_dropped size_100 buffer_150 consumer_rtcp
                           producer_rtcp t_rr 0)) [] []).
    + reflexivity.
    + vm_compute. discriminate.
    + reflexivity.
  - apply (proj1 (C7_oversized_compound_dropped size_100 1000 consumer_rtcp
                    producer_rtcp t_rr 0)).
    right. vm_compute. right. left. reflexivity.
Defined.

(** With a buffer that is large enough the same transports emit: first the
    compound of the consumer, then the one of the producers. *)
Example send_rtcp_fits :
  SendRtcp size_100 1000 consumer_rtcp producer_rtcp t_p1c1 0 =
    [SerializeCompoundPacket (consumer_rtcp c1 [] 0);
     SendRtcpCompoundPacket (consumer_rtcp c1 [] 0);
     SerializeCompoundPacket (producer_rtcp p1 [] 0);
     SendRtcpCompoundPacket (producer_rtcp p1 [] 0)].
Proof. reflexivity. Qed.

(** ** OnTimer *)

Lemma check_scale_true :
  forallb (fun r => forallb (scale_ok r) (zrange 0 1001)) (zrange 5 11) = true.
Proof. vm_compute. reflexivity. Qed.

Lemma in_zrange lo n z :
  Z.of_nat lo <= z < Z.of_nat lo + Z.of_nat n -> In z (zrange lo n).
Proof.
  intros H. unfold zrange. apply in_map_iff. exists (Z.to_nat z). split.
  - lia.
  - apply in_seq. lia.
Qed.

Lemma scale_ok_all b r : 0 <= b <= 1000 -> 5 <= r <= 15 -> scale_ok r b = true.
Proof.
  intros Hb Hr.
  assert (In r (zrange 5 11)) as Hinr by (apply in_zrange; lia).
  assert (In b (zrange 0 1001)) as Hinb by (apply in_zrange; lia).
  pose proof (proj1 (forallb_forall _ _) check_scale_true r Hinr) as H.
  exact (proj1 (forallb_forall _ _) H b Hinb).
Qed.

Lemma scale_interval_bounds b r :
  0 <= b <= 1000 -> 5 <= r <= 15 ->
  b / 2 <= scale_interval b r /\
  b * r / 10 - 1 <= scale_interval b r <= b * r / 10.
Proof.
  intros Hb Hr. pose proof (scale_ok_all b r Hb Hr) as H. unfold scale_ok in H.
  set (s := scale_interval b r) in *. clearbody s. cbv zeta in H.
  apply andb_prop in H. destruct H as [H H3]. apply andb_prop in H. destruct H as [H1 H2].
  apply Z.leb_le in H1, H2, H3. lia.
Qed.

Lemma sum_rate_range (R : Consumer -> Z -> Z) now (kvs : list (string * Consumer)) rate0 :
  0 <= rate0 < 2 ^ 32 ->
  0 <= fold_left (fun rate kv => to_uint32 (rate + R kv.2 now / 1000)) kvs rate0 < 2 ^ 32.
Proof.
  revert rate0. induction kvs as [| kv kvs IH]; intros rate0 H; cbn [fold_left].
  - exact H.
  - apply IH. unfold to_uint32. apply Z.mod_pos_bound. lia.
Qed.

Lemma next_interval_spec R t now :
  next_interval R t now =
    spec_base (negb (bool_decide (mapConsumers t = ∅)))
      (sum_rate R now (map_to_list (mapConsumers t))).
Proof.
  unfold next_interval, spec_base.
  destruct (negb (bool_decide (mapConsumers t = ∅))); [| reflexivity].
  cbn [andb].
  destruct (negb (sum_rate R now (map_to_list (mapConsumers t)) =? 0)).
  - destruct (Z.gtb_spec (360000 / sum_rate R now (map_to_list (mapConsumers t)))
                MaxVideoIntervalMs); lia.
  - destruct (Z.gtb_spec MaxVideoIntervalMs MaxVideoIntervalMs); [lia | reflexivity].
Qed.

Lemma spec_base_range has_consumers rate :
  0 <= rate -> 0 <= spec_base has_consumers rate <= MaxVideoIntervalMs.
Proof.
  intros Hrate. unfold spec_base, MaxVideoIntervalMs.
  destruct (has_consumers && negb (rate =? 0)); [| lia].
  assert (0 <= 360000 / rate) as Hdiv by (apply Z_div_nonneg_nonneg; lia).
  lia.
Qed.

(** C5, as stated, fails: the product of the base and the factor is
    converted back to an integer, which cuts the fraction off.  One consumer
    sending 8 Mbit/s gives the base 360000 / 8000 = 45; with the factor 0.5
    the timer is started with 22, which is under 0.5 * 45. *)
Lemma C5_counterexample :
  ~ (forall GetSize BufferSize Consumer_GetRtcp Producer_GetRtcp GetTransmissionRate
            t timer now random interval,
       rtcpTimer t = Some timer ->
       5 <= random <= 15 ->
       In (TimerStart interval)
          (OnTimer GetSize BufferSize Consumer_GetRtcp Producer_GetRtcp
             GetTransmissionRate t timer now random) ->
       let base := spec_base (negb (bool_decide (mapConsumers t = ∅)))
                     (sum_rate GetTransmissionRate now (map_to_list (mapConsumers t))) in
       base <= 2 * interval /\ 2 * interval <= 3 * MaxVideoIntervalMs).
Proof.
  intros H.
  destruct (H size_100 1000 consumer_rtcp producer_rtcp rate_8M t_p1c1 7 0 5 22)
    as [Hlow _].
  - reflexivity.
  - lia.
  - vm_compute. do 4 right. left. reflexivity.
  - vm_compute in Hlow. apply Hlow. reflexivity.
Qed.

(** C5 (amended): on an RTCP timer fire the base is MaxVideoIntervalMs, or,
    when there is a consumer and the 32-bit sum of the consumers' rates in
    kbit/s is not zero, 360000 divided by that sum (integer division) and
    clamped to MaxVideoIntervalMs; the timer is restarted with the base
    multiplied in single precision by random/10, random in 5..15, and cut to
    an integer: the exact product rounded down, or one less.  Every
    scheduled interval satisfies floor(0.5 * base) <= interval <=
    1.5 * MaxVideoIntervalMs. *)
Theorem C5_timer_interval
    GetSize BufferSize Consumer_GetRtcp Producer_GetRtcp GetTransmissionRate
    t timer now random :
  rtcpTimer t = Some timer ->
  5 <= random <= 15 ->
  let base := spec_base (negb (bool_decide (mapConsumers t = ∅)))
                (sum_rate GetTransmissionRate now (map_to_list (mapConsumers t))) in
  exists interval,
    OnTimer GetSize BufferSize Consumer_GetRtcp Producer_GetRtcp GetTransmissionRate
      t timer now random =
      SendRtcp GetSize BufferSize Consumer_GetRtcp Producer_GetRtcp t now ++
      [TimerStart interval] /\
    interval = scale_interval base random /\
    0 <= base <= MaxVideoIntervalMs /\
    base / 2 <= interval /\
    base * random / 10 - 1 <= interval <= base * random / 10 /\
    2 * interval <= 3 * MaxVideoIntervalMs.
Proof.
  intros Htimer Hrandom base.
  assert (0 <= base <= MaxVideoIntervalMs) as Hbase.
  { apply spec_base_range.
    apply (sum_rate_range GetTransmissionRate now (map_to_list (mapConsumers t)) 0). lia. }
  exists (scale_interval base random).
  split; [| split; [reflexivity | split; [exact Hbase |]]].
  - unfold OnTimer. rewrite Htimer. rewrite bool_decide_eq_true_2 by reflexivity.
    rewrite next_interval_spec. reflexivity.
  - unfold MaxVideoIntervalMs in *.
    destruct (scale_interval_bounds base random Hbase Hrandom) as (Hhalf & Hlo & Hhi).
    split; [exact Hhalf |]. split; [split; assumption |].
    assert (base * random / 10 <= 1500) as Hup.
    { apply Z.div_le_upper_bound; nia. }
    lia.
Qed.

Lemma C5_witness :
  let base := spec_base (negb (bool_decide (mapConsumers t_p1c1 = ∅)))
                (sum_rate rate_8M 0 (map_to_list (mapConsumers t_p1c1))) in
  exists interval,
    OnTimer size_100 1000 consumer_rtcp producer_rtcp rate_8M t_p1c1 7 0 5 =
      SendRtcp size_100 1000 consumer_rtcp producer_rtcp t_p1c1 0 ++
      [TimerStart interval] /\
    interval = scale_interval base 5 /\
    0 <= base <= MaxVideoIntervalMs /\
    base / 2 <= interval /\
    base * 5 / 10 - 1 <= interval <= base * 5 / 10 /\
    2 * interval <= 3 * MaxVideoIntervalMs.
Proof.
  apply (C5_timer_interval size_100 1000 consumer_rtcp producer_rtcp rate_8M t_p1c1 7 0 5).
  - reflexivity.
  - lia.
Defined.

(** Scenario S5 of the spec: two consumers at 100 kbit/s give 1800, which is
    clamped to the ceiling. *)
Example two_consumers_100kbps :
  next_interval (fun _ _ => 100000) t_c12 0 = 1000 /\
  scale_interval 1000 5 = 500 /\ scale_interval 1000 15 = 1500 /\
  scale_interval 45 5 = 22 /\ scale_interval 90 13 = 116.
Proof. vm_compute. repeat split; reflexivity. Qed.

(** * More of the transport *)

(** ** GetStartedConsumer *)

Lemma find_encoding_spec s encodings :
  find_encoding s encodings = true <-> Exists (encoding_has_ssrc s) encodings.
Proof.
  induction encodings as [| e encodings IH]; cbn [find_encoding].
  - split; [discriminate | intros H; inversion H].
  - unfold encoding_has_ssrc at 1. rewrite Exists_cons.
    destruct (Z.eqb_spec (ssrc e) s) as [Hs | Hs].
    { split; [intros _; left; left; exact Hs | reflexivity]. }
    destruct (hasRtx e); cbn [andb].
    + destruct (Z.eqb_spec (rtx_ssrc e) s) as [Hr | Hr].
      { split; [intros _; left; right; left; split; [reflexivity | exact Hr] | reflexivity]. }
      destruct (hasFec e); cbn [andb].
      * destruct (Z.eqb_spec (fec_ssrc e) s) as [Hf | Hf].
        { split; [intros _; left; right; right; split; [reflexivity | exact Hf] |
                  reflexivity]. }
        rewrite IH. split; [intros H; right; exact H |].
        intros [[H | [[_ H] | [_ H]]] | H]; try contradiction. exact H.
      * rewrite IH. split; [intros H; right; exact H |].
        intros [[H | [[_ H] | [H _]]] | H]; try contradiction; try discriminate. exact H.
    + destruct (hasFec e); cbn [andb].
      * destruct (Z.eqb_spec (fec_ssrc e) s) as [Hf | Hf].
        { split; [intros _; left; right; right; split; [reflexivity | exact Hf] |
                  reflexivity]. }
        rewrite IH. split; [intros H; right; exact H |].
        intros [[H | [[H _] | [_ H]]] | H]; try contradiction; try discriminate. exact H.
      * rewrite IH. split; [intros H; right; exact H |].
        intros [[H | [[H _] | [H _]]] | H]; try contradiction; try discriminate. exact H.
Qed.

Lemma scan_consumers_Some s kvs c :
  scan_consumers s kvs = Some c ->
  (exists k, In (k, c) kvs) /\ consumer_listens c s.
Proof.
  induction kvs as [| [k c0] kvs IH]; cbn [scan_consumers snd]; [discriminate |].
  destruct (IsStarted c0) eqn:Hstarted; cbn [negb].
  - destruct (find_encoding s (consumer_encodings c0)) eqn:Hfind.
    + intros [= <-]. split; [exists k; left; reflexivity |].
      split; [exact Hstarted | apply find_encoding_spec; exact Hfind].
    + intros H. destruct (IH H) as [[k' Hin] Hl]. split; [exists k'; right; exact Hin | exact Hl].
  - intros H. destruct (IH H) as [[k' Hin] Hl]. split; [exists k'; right; exact Hin | exact Hl].
Qed.

Lemma scan_consumers_None s kvs :
  scan_consumers s kvs = None <->
  forall k c, In (k, c) kvs -> ~ consumer_listens c s.
Proof.
  induction kvs as [| [k0 c0] kvs IH]; cbn [scan_consumers snd].
  - split; [intros _ k c [] | reflexivity].
  - destruct (IsStarted c0) eqn:Hstarted; cbn [negb].
    + destruct (find_encoding s (consumer_encodings c0)) eqn:Hfind.
      * split; [discriminate |]. intros H. exfalso. apply (H k0 c0); [left; reflexivity |].
        split; [exact Hstarted | apply find_encoding_spec; exact Hfind].
      * rewrite IH. split.
        -- intros H k c [[= <- <-] | Hin]; [| exact (H k c Hin)].
           intros [_ Hex]. apply find_encoding_spec in Hex. congruence.
        -- intros H k c Hin. apply (H k c). right. exact Hin.
    + rewrite IH. split.
      * intros H k c [[= <- <-] | Hin]; [| exact (H k c Hin)].
        intros [Hs _]. congruence.
      * intros H k c Hin. apply (H k c). right. exact Hin.
Qed.

Lemma in_map_to_list_consumers (m : gmap string Consumer) k c :
  In (k, c) (map_to_list m) <-> m !! k = Some c.
Proof. rewrite <- list_elem_of_In. apply elem_of_map_to_list. Qed.

Lemma in_map_to_list_producers (m : gmap string Producer) k p :
  In (k, p) (map_to_list m) <-> m !! k = Some p.
Proof. rewrite <- list_elem_of_In. apply elem_of_map_to_list. Qed.

(** X1: the consumer [GetStartedConsumer] returns is registered in the
    consumers map, is started, and one of its encodings carries the SSRC as
    primary SSRC, as RTX SSRC with [hasRtx], or as FEC SSRC with [hasFec];
    it returns [nullptr] exactly when no registered consumer is started and
    carries the SSRC. *)
Theorem GetStartedConsumer_sound_complete t s :
  (forall c, GetStartedConsumer t s = Some c ->
             (exists k, mapConsumers t !! k = Some c) /\ consumer_listens c s) /\
  (GetStartedConsumer t s = None <->
   forall k c, mapConsumers t !! k = Some c -> ~ consumer_listens c s).
Proof.
  unfold GetStartedConsumer. split.
  - intros c H. destruct (scan_consumers_Some s _ c H) as [[k Hin] Hl].
    split; [exists k; apply in_map_to_list_consumers; exact Hin | exact Hl].
  - rewrite scan_consumers_None. split.
    + intros H k c Hl. apply (H k c). apply in_map_to_list_consumers. exact Hl.
    + intros H k c Hin. apply (H k c). apply in_map_to_list_consumers. exact Hin.
Qed.

(** An RTX SSRC is ignored when the encoding has no RTX stream, and a
    consumer that is not started is never found. *)
Example GetStartedConsumer_edges :
  GetStartedConsumer
    (set_mapConsumers {[ "c" := mkConsumer "c" VIDEO true [mkEncoding 1 false 2 true 3] ]}
       t_new) 2 = None /\
  GetStartedConsumer
    (set_mapConsumers {[ "c" := mkConsumer "c" VIDEO true [mkEncoding 1 false 2 true 3] ]}
       t_new) 3 <> None /\
  GetStartedConsumer
    (set_mapConsumers {[ "c" := mkConsumer "c" VIDEO false [mkEncoding 1 false 2 true 3] ]}
       t_new) 1 = None.
Proof. vm_compute. repeat split; discriminate. Qed.

(** ** ReceiveRtcpPacket: who is called, what changes *)

Lemma receive_rr_consumers t reports e c :
  In e (receive_rr t reports) -> event_consumer e = Some c ->
  exists s, GetStartedConsumer t s = Some c.
Proof.
  induction reports as [| r reports IH]; cbn [receive_rr]; [intros [] |].
  destruct (GetStartedConsumer t (rr_ssrc r)) as [c0 |] eqn:Hc0.
  - intros [<- | Hin]; [| apply IH; exact Hin].
    cbn. intros [= <-]. exists (rr_ssrc r). exact Hc0.
  - intros [<- | []]. discriminate.
Qed.

Lemma receive_sr_no_consumer t reports e :
  In e (receive_sr t reports) -> event_consumer e = None.
Proof.
  induction reports as [| r reports IH]; cbn [receive_sr]; [intros [] |].
  destruct (RtpListener.GetProducer (rtpListener t) (sr_ssrc r));
    (intros [<- | Hin]; [reflexivity | apply IH; exact Hin]).
Qed.

Lemma receive_sdes_no_consumer t chunks e :
  In e (receive_sdes t chunks) -> event_consumer e = None.
Proof.
  induction chunks as [| r chunks IH]; cbn [receive_sdes]; [intros [] |].
  destruct (RtpListener.GetProducer (rtpListener t) (chunk_ssrc r)).
  - exact IH.
  - intros [<- | Hin]; [reflexivity | apply IH; exact Hin].
Qed.

(** X2: whatever RTCP packet arrives, a receiver report, a key frame request
    or a NACK is only ever handed to a consumer that is registered in the
    consumers map and started. *)
Theorem rtcp_feedback_only_to_started_consumers t packet e c :
  In e (ReceiveRtcpPacket t packet).2 ->
  event_consumer e = Some c ->
  (exists k, mapConsumers t !! k = Some c) /\ IsStarted c = true.
Proof.
  intros Hin Hc.
  assert (exists s, GetStartedConsumer t s = Some c) as [s Hs].
  { destruct packet as [reports | reports | chunks | | message s | message s | type];
      cbn [ReceiveRtcpPacket snd] in Hin.
    - exact (receive_rr_consumers t reports e c Hin Hc).
    - rewrite (receive_sr_no_consumer t reports e Hin) in Hc. discriminate.
    - rewrite (receive_sdes_no_consumer t chunks e Hin) in Hc. discriminate.
    - destruct Hin as [<- | []]. discriminate.
    - destruct message as [| | [bitrate |] | n]; cbn [snd] in Hin.
      + destruct (GetStartedConsumer t s) as [c0 |] eqn:Hc0; cbn [snd] in Hin.
        * destruct Hin as [<- | [<- | []]]; [discriminate |].
          injection Hc as <-. exists s. exact Hc0.
        * destruct Hin as [<- | []]. discriminate.
      + destruct (GetStartedConsumer t s) as [c0 |] eqn:Hc0; cbn [snd] in Hin.
        * destruct Hin as [<- | [<- | []]]; [discriminate |].
          injection Hc as <-. exists s. exact Hc0.
        * destruct Hin as [<- | []]. discriminate.
      + destruct Hin.
      + destruct Hin as [<- | []]. discriminate.
      + destruct Hin as [<- | []]. discriminate.
    - destruct (GetStartedConsumer t s) as [c0 |] eqn:Hc0; cbn [snd] in Hin.
      + destruct message as [lost | n]; cbn [snd] in Hin.
        * destruct Hin as [<- | []]. injection Hc as <-. exists s. exact Hc0.
        * destruct Hin as [<- | []]. discriminate.
      + destruct Hin as [<- | []]. discriminate.
    - destruct Hin as [<- | []]. discriminate. }
  destruct (scan_consumers_Some s _ c Hs) as [[k Hk] [Hstarted _]].
  split; [exists k; apply in_map_to_list_consumers; exact Hk | exact Hstarted].
Qed.

Lemma rtcp_feedback_witness :
  (exists k, mapConsumers t_p1c1 !! k = Some c1) /\ IsStarted c1 = true.
Proof.
  apply (rtcp_feedback_only_to_started_consumers t_p1c1 (PSFB PLI 200)
           (ConsumerReceiveKeyFrameRequest c1 PLI) c1).
  - right. left. reflexivity.
  - reflexivity.
Defined.

Lemma ReceiveRtcpPacket_state t packet :
  (ReceiveRtcpPacket t packet).1 = t \/
  exists bitrate mediaSsrc,
    packet = PSFB (AFB (REMB bitrate)) mediaSsrc /\
    (ReceiveRtcpPacket t packet).2 = [] /\
    (ReceiveRtcpPacket t packet).1 = set_availableOutgoingBitrate (bitrate mod 2 ^ 32) t.
Proof.
  destruct packet as [reports | reports | chunks | | message s | message s | type];
    cbn [ReceiveRtcpPacket fst snd]; try (left; reflexivity).
  - destruct message as [| | [bitrate |] | n].
    + destruct (GetStartedConsumer t s); left; reflexivity.
    + destruct (GetStartedConsumer t s); left; reflexivity.
    + right. exists bitrate, s. split; [reflexivity |]. split; reflexivity.
    + left. reflexivity.
    + left. reflexivity.
  - destruct (GetStartedConsumer t s); [destruct message |]; left; reflexivity.
Qed.


(** Scenario S4 of the spec. *)
Example remb_ingest :
  availableOutgoingBitrate (ReceiveRtcpPacket t_p1c1 (PSFB (AFB (REMB 750000)) 0)).1 = 750000.
Proof. reflexivity. Qed.

(** X4: an SDES packet reaches no producer and no consumer: the transport
    writes one warning for each chunk whose SSRC the RTP listener does not
    know, in the order of the chunks, and does nothing else. *)
Theorem sdes_only_warns t chunks :
  ReceiveRtcpPacket t (SDES chunks) =
    (t, map (fun c => Log WARN "no Producer for received SDES chunk" [chunk_ssrc c])
          (List.filter
             (fun c => match rtpListener t !! chunk_ssrc c with
                       | None => true
                       | Some _ => false
                       end)
             chunks)).
Proof.
  cbn [ReceiveRtcpPacket]. f_equal.
  induction chunks as [| c chunks IH]; cbn [receive_sdes List.filter]; [reflexivity |].
  unfold RtpListener.GetProducer.
  destruct (rtpListener t !! chunk_ssrc c); cbn [map]; rewrite IH; reflexivity.
Qed.

(** ** Close and the destructor *)









(** X6: a transport that was closed holds nothing any more: a second
    [Close()] makes no call to the listener and deletes nothing (it closes
    the timer once more), and the destructor that follows [Close()] deletes
    no producer and no consumer, only the timer. *)
Theorem nothing_left_after_Close t :
  (Close (Close t).1).2 = match rtcpTimer t with Some _ => [TimerClose] | None => [] end /\
  (Close (Close t).1).1 = (Close t).1 /\
  Transport_destructor (Close t).1 = ([], rtcpTimer t).
Proof.
  unfold Close, Transport_destructor.
  cbn [fst snd set_mapProducers set_mapConsumers mapProducers mapConsumers rtcpTimer].
  rewrite !map_to_list_empty. cbn. repeat split.
Qed.

Lemma delete_producers_spec kvs e :
  In e (delete_producers kvs) <-> exists k p, In (k, p) kvs /\ e = DeleteProducer p.
Proof.
  unfold delete_producers. rewrite in_map_iff. split.
  - intros [[k p] [<- Hin]]. exists k, p. split; [exact Hin | reflexivity].
  - intros (k & p & Hin & ->). exists (k, p). split; [reflexivity | exact Hin].
Qed.

Lemma delete_consumers_spec kvs e :
  In e (delete_consumers kvs) <-> exists k c, In (k, c) kvs /\ e = DeleteConsumer c.
Proof.
  unfold delete_consumers. rewrite in_map_iff. split.
  - intros [[k c] [<- Hin]]. exists k, c. split; [exact Hin | reflexivity].
  - intros (k & c & Hin & ->). exists (k, c). split; [reflexivity | exact Hin].
Qed.

(** X7: the destructor is silent: it deletes every registered producer and
    consumer, one delete per entry of the maps, and makes no call to the
    listener, unlike [Close()]. *)
Theorem destructor_is_silent t :
  (forall e, In e (Transport_destructor t).1 ->
             is_listener_callback e = false /\
             ((exists k p, mapProducers t !! k = Some p /\ e = DeleteProducer p) \/
              (exists k c, mapConsumers t !! k = Some c /\ e = DeleteConsumer c))) /\
  (forall k p, mapProducers t !! k = Some p -> In (DeleteProducer p) (Transport_destructor t).1) /\
  (forall k c, mapConsumers t !! k = Some c -> In (DeleteConsumer c) (Transport_destructor t).1) /\
  length (Transport_destructor t).1 = (size (mapProducers t) + size (mapConsumers t))%nat /\
  (Transport_destructor t).2 = rtcpTimer t.
Proof.
  unfold Transport_destructor.
  cbn [fst snd set_mapProducers set_mapConsumers mapProducers mapConsumers rtcpTimer].
  split; [| split; [| split; [| split]]].
  - intros e. rewrite in_app_iff, delete_producers_spec, delete_consumers_spec.
    intros [(k & p & Hin & ->) | (k & c & Hin & ->)].
    + split; [reflexivity |]. left. exists k, p.
      split; [apply in_map_to_list_producers; exact Hin | reflexivity].
    + split; [reflexivity |]. right. exists k, c.
      split; [apply in_map_to_list_consumers; exact Hin | reflexivity].
  - intros k p Hk. rewrite in_app_iff. left. apply delete_producers_spec.
    exists k, p. split; [apply in_map_to_list_producers; exact Hk | reflexivity].
  - intros k c Hk. rewrite in_app_iff. right. apply delete_consumers_spec.
    exists k, c. split; [apply in_map_to_list_consumers; exact Hk | reflexivity].
  - rewrite length_app. unfold delete_producers, delete_consumers.
    rewrite !length_map, !length_map_to_list. reflexivity.
  - reflexivity.
Qed.

(** ** HandleRequest: what a rejected request leaves behind *)

(** X8: a request that is rejected leaves the whole transport as it was and
    comes with no call to the listener and no delete; and no request,
    accepted or rejected, changes the header extension ids, the available
    outgoing bitrate, the RTCP timer or the [producers] collection. *)
Theorem HandleRequest_reject_changes_nothing consumer t request t' events :
  HandleRequest consumer t request = Ok (t', events) ->
  (forall reason,
     In (RequestReject reason) events ->
     t' = t /\
     Forall (fun e => is_listener_callback e = false /\ is_delete e = false) events) /\
  rtpHeaderExtensionIds t' = rtpHeaderExtensionIds t /\
  availableOutgoingBitrate t' = availableOutgoingBitrate t /\
  rtcpTimer t' = rtcpTimer t /\
  producers t' = producers t /\
  IsConnected t' = IsConnected t.
Proof.
  unfold HandleRequest. destruct (methodId request).
  - destruct (json_find "bitrate" (data request)) as [j |].
    + destruct (is_number_unsigned j); cbn [negb]; intros [= <- <-].
      * split; [| repeat split]. intros reason [H | [H | []]]; discriminate H.
      * split; [| repeat split]. intros reason _. split; [reflexivity |].
        repeat constructor.
    + intros [= <- <-]. split; [| repeat split]. intros reason _.
      split; [reflexivity |]. repeat constructor.
  - destruct (GetProducerFromRequest t request) as [p | e]; intros [= <- <-].
    + split; [| repeat split]. intros reason [H | [H | [H | []]]]; discriminate H.
    + split; [| repeat split]. intros reason _. split; [reflexivity |]. repeat constructor.
  - destruct (GetConsumerFromRequest t request) as [p | e]; intros [= <- <-].
    + split; [| repeat split]. intros reason [H | [H | [H | []]]]; discriminate H.
    + split; [| repeat split]. intros reason _. split; [reflexivity |]. repeat constructor.
  - intros [= <- <-]. split; [| repeat split]. intros reason _.
    split; [reflexivity |]. repeat constructor.
Qed.

Lemma HandleRequest_reject_witness :
  (forall reason,
     In (RequestReject reason) [RequestReject "Producer not found"] ->
     t_p1c1 = t_p1c1 /\
     Forall (fun e => is_listener_callback e = false /\ is_delete e = false)
       [RequestReject "Producer not found"]) /\
  rtpHeaderExtensionIds t_p1c1 = rtpHeaderExtensionIds t_p1c1 /\
  availableOutgoingBitrate t_p1c1 = availableOutgoingBitrate t_p1c1 /\
  rtcpTimer t_p1c1 = rtcpTimer t_p1c1 /\
  producers t_p1c1 = producers t_p1c1 /\
  IsConnected t_p1c1 = IsConnected t_p1c1.
Proof.
  apply (HandleRequest_reject_changes_nothing c1 t_p1c1 (request_producer_close "p9")
           t_p1c1 [RequestReject "Producer not found"]).
  reflexivity.
Defined.

(** ** Invariants of every reachable transport *)


(** What one operation can do to each member of the transport. *)
Lemma transport_op_shape consumer t t' :
  transport_op consumer t t' ->
  (mapProducers t' = mapProducers t \/
   (exists p, mapProducers t' = <[producer_id p := p]> (mapProducers t)) \/
   (exists k, mapProducers t' = delete k (mapProducers t)) \/
   mapProducers t' = ∅) /\
  (mapConsumers t' = mapConsumers t \/
   (exists c, mapConsumers t' = <[consumer_id c := c]> (mapConsumers t)) \/
   (exists k, mapConsumers t' = delete k (mapConsumers t)) \/
   mapConsumers t' = ∅) /\
  (maxIncomingBitrate t' = maxIncomingBitrate t \/
   10000 <= maxIncomingBitrate t' <= uint32_max) /\
  (rtpHeaderExtensionIds t' = rtpHeaderExtensionIds t \/
   exists theirs,
     rtpHeaderExtensionIds t' = merge_extIds (rtpHeaderExtensionIds t) theirs) /\
  rtcpTimer t' = rtcpTimer t.
Proof.
  intros [t0 producer t1 Hp | t0 c | t0 request t1 events Hr | t0 | t0 packet].
  - unfold HandleProducer in Hp.
    destruct (RtpListener.AddProducer (rtpListener t0) producer) as [l | e]; [| discriminate].
    injection Hp as <-. cbn.
    split; [right; left; exists producer; reflexivity |].
    split; [left; reflexivity |]. split; [left; reflexivity |].
    split; [right; exists (producer_extIds producer); reflexivity | reflexivity].
  - unfold HandleConsumer. cbn [IsConnected set_mapConsumers].
    destruct (IsConnected t0); cbn;
      (split; [left; reflexivity |]; split; [right; left; exists c; reflexivity |];
       split; [left; reflexivity |]; split; [left; reflexivity | reflexivity]).
  - unfold HandleRequest in Hr. destruct (methodId request).
    + destruct (json_find "bitrate" (data request)) as [j |].
      * destruct (is_number_unsigned j) eqn:Hj; cbn [negb] in Hr; injection Hr as <- _.
        -- cbn. split; [left; reflexivity |]. split; [left; reflexivity |].
           split; [| split; [left; reflexivity | reflexivity]].
           right. destruct j; try discriminate Hj. cbn. unfold to_uint32, MinBitrate, uint32_max.
           pose proof (Z.mod_pos_bound n (2 ^ 32) ltac:(lia)) as Hmod.
           destruct (Z.ltb_spec (n mod 2 ^ 32) 10000); lia.
        -- repeat split; left; reflexivity.
      * injection Hr as <- _. repeat split; left; reflexivity.
    + destruct (GetProducerFromRequest t0 request) as [p | e]; injection Hr as <- _.
      * cbn. split; [right; right; left; exists (producer_id p); reflexivity |].
        split; [left; reflexivity |]. split; [left; reflexivity |].
        split; [left; reflexivity | reflexivity].
      * repeat split; left; reflexivity.
    + destruct (GetConsumerFromRequest t0 request) as [p | e]; injection Hr as <- _.
      * cbn. split; [left; reflexivity |].
        split; [right; right; left; exists (consumer_id consumer); reflexivity |].
        split; [left; reflexivity |]. split; [left; reflexivity | reflexivity].
      * repeat split; left; reflexivity.
    + injection Hr as <- _. repeat split; left; reflexivity.
  - unfold Close. cbn.
    split; [right; right; right; reflexivity |].
    split; [right; right; right; reflexivity |].
    split; [left; reflexivity |]. split; [left; reflexivity | reflexivity].
  - destruct (ReceiveRtcpPacket_state t0 packet) as [-> | (bitrate & s & _ & _ & ->)];
      cbn; (split; [left; reflexivity |]; split; [left; reflexivity |];
            split; [left; reflexivity |]; split; [left; reflexivity | reflexivity]).
Qed.

Lemma reachable_all_ind_r consumer (P : Transport -> Prop) :
  (forall id timer connected, P (Transport_new id timer connected)) ->
  (forall t t', P t -> transport_op consumer t t' -> P t') ->
  forall t, reachable_all consumer t -> P t.
Proof.
  intros Hnew Hstep t (id & timer & connected & Hrtc).
  revert t Hrtc. apply rtc_ind_r.
  - apply Hnew.
  - intros t1 t2 _ Hop IH. exact (Hstep t1 t2 IH Hop).
Qed.

(** X9: in every state the transport can reach, through any sequence of
    registrations, requests, RTCP packets and [Close()], the producers and
    the consumers are filed under their own ids. *)
Theorem maps_keyed_by_id consumer t :
  reachable_all consumer t ->
  keys_consistent t /\ consumer_keys_consistent t.
Proof.
  revert t. apply reachable_all_ind_r.
  - intros id timer connected. split; intros k x; cbn; rewrite lookup_empty; discriminate.
  - intros t t' [Hp Hc] Hop.
    destruct (transport_op_shape consumer t t' Hop) as (Hmp & Hmc & _). split.
    + intros k p. destruct Hmp as [-> | [[q ->] | [[k0 ->] | ->]]].
      * apply Hp.
      * rewrite lookup_insert. case_decide as Hk; [intros [= <-]; exact Hk | apply Hp].
      * rewrite lookup_delete. case_decide; [discriminate | apply Hp].
      * rewrite lookup_empty. discriminate.
    + intros k c. destruct Hmc as [-> | [[q ->] | [[k0 ->] | ->]]].
      * apply Hc.
      * rewrite lookup_insert. case_decide as Hk; [intros [= <-]; exact Hk | apply Hc].
      * rewrite lookup_delete. case_decide; [discriminate | apply Hc].
      * rewrite lookup_empty. discriminate.
Qed.

Lemma maps_keyed_by_id_witness :
  keys_consistent t_p1 /\ consumer_keys_consistent t_p1.
Proof.
  apply (maps_keyed_by_id c1 t_p1).
  exists 1, 7, true. apply rtc_once.
  apply (op_HandleProducer c1 t_new p1 t_p1). vm_compute. reflexivity.
Defined.

(** X10: in every state the transport can reach, [maxIncomingBitrate] is
    either the initial 0 or a 32-bit value of at least 10000: no operation
    brings it under the floor once a request has set it. *)
Theorem bitrate_never_under_floor consumer t :
  reachable_all consumer t -> bitrate_floor t.
Proof.
  revert t. apply reachable_all_ind_r.
  - intros id timer connected. left. reflexivity.
  - intros t t' IH Hop.
    destruct (transport_op_shape consumer t t' Hop) as (_ & _ & [Hb | Hb] & _).
    + unfold bitrate_floor. rewrite Hb. exact IH.
    + right. exact Hb.
Qed.

Lemma bitrate_never_under_floor_witness :
  bitrate_floor (set_maxIncomingBitrate 10000 t_new).
Proof.
  apply (bitrate_never_under_floor c1).
  exists 1, 7, true. apply rtc_once.
  apply (op_HandleRequest c1 t_new (request_bitrate (JNumberUnsigned 500))
           (set_maxIncomingBitrate 10000 t_new)
           [Log DEBUG "Transport maximum incoming bitrate set" [10000]; RequestAccept]).
  reflexivity.
Defined.



(** The producer [p3] declares no absSendTime id: the id 3 that [p2] brought
    is kept, and the ids of [p3] are added. *)
Example header_extension_ids_merge :
  HandleProducer t_new p2 = Ok t_p2 /\ HandleProducer t_p2 p3 = Ok t_p2p3 /\
  rtpHeaderExtensionIds t_p2p3 = mkExtIds 3 4 5.
Proof. vm_compute. repeat split; reflexivity. Qed.

(** ** Registering and closing a producer *)

Lemma RemoveProducer_after_add (table : gmap Z Producer) p :
  (forall s, table !! s <> Some p) ->
  existsb (RtpListener.collides table p) (RtpListener.primary_ssrcs p) = false ->
  RtpListener.RemoveProducer
    (RtpListener.add_ssrcs p (RtpListener.primary_ssrcs p) table) p = table.
Proof.
  intros Hfresh Hex. apply map_eq. intros s. apply option_eq. intros q.
  rewrite RemoveProducer_lookup.
  destruct (in_dec Z.eq_dec s (RtpListener.primary_ssrcs p)) as [Hin | Hin].
  - rewrite (add_ssrcs_in p _ table s Hin). split.
    + intros [[= ->] Hne]. contradiction.
    + intros Hs. exfalso. apply (Hfresh s).
      rewrite Hs. f_equal. exact (no_collision table p _ s q Hex Hin Hs).
  - rewrite (add_ssrcs_not_in p _ table s Hin). split.
    + intros [Hs _]. exact Hs.
    + intros Hs. split; [exact Hs |]. intros ->. exact (Hfresh s Hs).
Qed.

(** X12: registering a producer under a free id, with no entry of the RTP
    listener resolving to it yet, and closing it by a PRODUCER_CLOSE request
    gives back the producers map and the RTP listener of before the
    registration; the header extension ids it brought stay. *)
Theorem register_then_close consumer t p t1 request :
  mapProducers t !! producer_id p = None ->
  (forall s, rtpListener t !! s <> Some p) ->
  HandleProducer t p = Ok t1 ->
  methodId request = PRODUCER_CLOSE ->
  json_find "producerId" (internal request) = Some (JString (producer_id p)) ->
  exists t2,
    HandleRequest consumer t1 request =
      Ok (t2, [OnTransportProducerClosed p; DeleteProducer p; RequestAccept]) /\
    mapProducers t2 = mapProducers t /\
    rtpListener t2 = rtpListener t /\
    mapConsumers t2 = mapConsumers t /\
    rtpHeaderExtensionIds t2 =
      merge_extIds (rtpHeaderExtensionIds t) (producer_extIds p).
Proof.
  intros Hfree Hfresh Hp Hm Hf.
  unfold HandleProducer, RtpListener.AddProducer in Hp.
  destruct (existsb (RtpListener.collides (rtpListener t) p) (RtpListener.primary_ssrcs p))
    eqn:Hex; [discriminate |].
  injection Hp as <-.
  eexists. split; [| split; [| split; [| split]]].
  - unfold HandleRequest. rewrite Hm.
    rewrite (GetProducerFromRequest_found _ request (producer_id p) p Hf).
    + reflexivity.
    + cbn. apply lookup_insert_eq.
  - cbn. apply delete_insert_id. exact Hfree.
  - cbn. apply RemoveProducer_after_add; assumption.
  - reflexivity.
  - reflexivity.
Qed.

Lemma register_then_close_witness :
  exists t2,
    HandleRequest c1 t_p1 (request_producer_close "p1") =
      Ok (t2, [OnTransportProducerClosed p1; DeleteProducer p1; RequestAccept]) /\
    mapProducers t2 = mapProducers t_new /\
    rtpListener t2 = rtpListener t_new /\
    mapConsumers t2 = mapConsumers t_new /\
    rtpHeaderExtensionIds t2 =
      merge_extIds (rtpHeaderExtensionIds t_new) (producer_extIds p1).
Proof.
  apply (register_then_close c1 t_new p1 t_p1 (request_producer_close "p1")).
  - reflexivity.
  - intros s. cbn. rewrite lookup_empty. discriminate.
  - vm_compute. reflexivity.
  - reflexivity.
  - reflexivity.
Defined.

(** ** The id of a new producer or consumer *)

(** X13: on every request the check of a new producer id and the lookup of
    an existing producer answer opposite: the check passes exactly when the
    lookup fails with "Producer not found", it fails with "already exists"
    exactly when the lookup finds a producer, and both fail alike when
    [internal.producerId] is missing or is not a string.  The caller's string
    receives the requested id as soon as it is a string, also when the check
    then throws; otherwise it is left alone. *)
Theorem new_producer_id_is_the_opposite_of_lookup t request producerId :
  ((SetNewProducerIdFromRequest t request producerId).2 = Ok tt <->
   GetProducerFromRequest t request = Throw "Producer not found") /\
  ((SetNewProducerIdFromRequest t request producerId).2 =
     Throw "a Producer with same producerId already exists" <->
   exists p, GetProducerFromRequest t request = Ok p) /\
  ((SetNewProducerIdFromRequest t request producerId).2 =
     Throw "request has no internal.producerId" <->
   GetProducerFromRequest t request = Throw "request has no internal.producerId") /\
  (SetNewProducerIdFromRequest t request producerId).1 =
    match json_find "producerId" (internal request) with
    | Some (JString pid) => pid
    | _ => producerId
    end.
Proof.
  unfold SetNewProducerIdFromRequest, GetProducerFromRequest.
  destruct (json_find "producerId" (internal request)) as [j |].
  - destruct j; cbn;
      try (repeat split; try discriminate; try reflexivity; intros [p H]; discriminate H).
    destruct (mapProducers t !! s) as [p |]; cbn.
    + repeat split; try discriminate; try reflexivity. intros _. exists p. reflexivity.
    + repeat split; try discriminate; try reflexivity. intros [p H]. discriminate H.
  - cbn. repeat split; try discriminate; try reflexivity. intros [p H]. discriminate H.
Qed.

(** X14: when the check of the new id passed, [HandleProducer] under that id
    keeps every producer that was registered and adds one entry to the
    producers map. *)
Theorem checked_id_keeps_producers t request producerId p t' :
  SetNewProducerIdFromRequest t request producerId = (producer_id p, Ok tt) ->
  HandleProducer t p = Ok t' ->
  (forall k q, mapProducers t !! k = Some q -> mapProducers t' !! k = Some q) /\
  mapProducers t' !! producer_id p = Some p /\
  size (mapProducers t') = S (size (mapProducers t)).
Proof.
  intros Hset Hp.
  assert (mapProducers t !! producer_id p = None) as Hfree.
  { unfold SetNewProducerIdFromRequest in Hset.
    destruct (json_find "producerId" (internal request)) as [j |]; [| discriminate].
    destruct (is_string j); cbn [negb] in Hset; [| discriminate].
    destruct (mapProducers t !! get_string j) eqn:Hl; [discriminate |].
    injection Hset as <-. exact Hl. }
  destruct (HandleProducer_inv t p t' Hp) as (listener & _ & Hmap & _).
  rewrite Hmap. split; [| split].
  - intros k q Hk. rewrite lookup_insert_ne; [exact Hk |].
    intros <-. congruence.
  - apply lookup_insert_eq.
  - apply map_size_insert_None. exact Hfree.
Qed.

Lemma checked_id_keeps_producers_witness :
  (forall k q, mapProducers t_p2 !! k = Some q -> mapProducers t_p2p3 !! k = Some q) /\
  mapProducers t_p2p3 !! producer_id p3 = Some p3 /\
  size (mapProducers t_p2p3) = S (size (mapProducers t_p2)).
Proof.
  apply (checked_id_keeps_producers t_p2 (request_new_producer "p3") "" p3 t_p2p3).
  - reflexivity.
  - vm_compute. reflexivity.
Defined.

(** Without the check a second producer under the same id takes the place of
    the first in the map, while the RTP listener keeps the SSRC of the
    first. *)
Example unchecked_id_replaces_producer :
  exists t',
    HandleProducer t_p1 (mkProducer "p1" [enc 555] (mkExtIds 0 0 0)) = Ok t' /\
    mapProducers t' !! "p1" = Some (mkProducer "p1" [enc 555] (mkExtIds 0 0 0)) /\
    rtpListener t' !! 100 = Some p1.
Proof. eexists. split; [vm_compute; reflexivity |]. split; reflexivity. Qed.

(** X15: when the check of the new id passed, [HandleConsumer] under that id
    keeps every consumer that was registered and adds one entry to the
    consumers map. *)
Theorem checked_id_keeps_consumers t request consumerId c :
  SetNewConsumerIdFromRequest t request consumerId = (consumer_id c, Ok tt) ->
  (forall k q, mapConsumers t !! k = Some q ->
               mapConsumers (HandleConsumer t c).1 !! k = Some q) /\
  mapConsumers (HandleConsumer t c).1 !! consumer_id c = Some c /\
  size (mapConsumers (HandleConsumer t c).1) = S (size (mapConsumers t)).
Proof.
  intros Hset.
  assert (mapConsumers t !! consumer_id c = None) as Hfree.
  { unfold SetNewConsumerIdFromRequest in Hset.
    destruct (json_find "consumerId" (internal request)) as [j |]; [| discriminate].
    destruct (is_string j); cbn [negb] in Hset; [| discriminate].
    destruct (mapConsumers t !! get_string j) eqn:Hl; [discriminate |].
    injection Hset as <-. exact Hl. }
  assert ((HandleConsumer t c).1 =
          set_mapConsumers (<[consumer_id c := c]> (mapConsumers t)) t) as ->.
  { unfold HandleConsumer. cbn [IsConnected set_mapConsumers].
    destruct (IsConnected t); reflexivity. }
  cbn. split; [| split].
  - intros k q Hk. rewrite lookup_insert_ne; [exact Hk |].
    intros <-. congruence.
  - apply lookup_insert_eq.
  - apply map_size_insert_None. exact Hfree.
Qed.

Lemma checked_id_keeps_consumers_witness :
  (forall k q, mapConsumers t_new !! k = Some q ->
               mapConsumers (HandleConsumer t_new c1).1 !! k = Some q) /\
  mapConsumers (HandleConsumer t_new c1).1 !! consumer_id c1 = Some c1 /\
  size (mapConsumers (HandleConsumer t_new c1).1) = S (size (mapConsumers t_new)).
Proof.
  apply (checked_id_keeps_consumers t_new (request_new_consumer "c1") "" c1).
  reflexivity.
Defined.

(** ** OnTimer at the ends of the rate range *)

Lemma scale_zero r : 5 <= r <= 15 -> scale_interval 0 r = 0.
Proof.
  intros Hr. destruct (scale_interval_bounds 0 r ltac:(lia) Hr) as (H1 & H2 & H3).
  rewrite Z.mul_0_l in H3. change (0 / 10) with 0 in H3. change (0 / 2) with 0 in H1.
  lia.
Qed.

Lemma scale_ceiling r : 5 <= r <= 15 -> scale_interval 1000 r = 100 * r.
Proof.
  intros Hr.
  assert (r = 5 \/ r = 6 \/ r = 7 \/ r = 8 \/ r = 9 \/ r = 10 \/ r = 11 \/ r = 12 \/
          r = 13 \/ r = 14 \/ r = 15) as Hcases by lia.
  repeat (destruct Hcases as [-> | Hcases]; [vm_compute; reflexivity |]).
  subst r. vm_compute. reflexivity.
Qed.

(** X16: when the consumers together send more than 360000 kbit/s the
    division gives 0 and the RTCP timer is restarted with an interval of
    0 ms, whatever the random factor. *)
Theorem OnTimer_interval_zero
    GetSize BufferSize Consumer_GetRtcp Producer_GetRtcp GetTransmissionRate
    t timer now random :
  rtcpTimer t = Some timer ->
  5 <= random <= 15 ->
  mapConsumers t <> ∅ ->
  360000 < sum_rate GetTransmissionRate now (map_to_list (mapConsumers t)) ->
  OnTimer GetSize BufferSize Consumer_GetRtcp Producer_GetRtcp GetTransmissionRate
    t timer now random =
    SendRtcp GetSize BufferSize Consumer_GetRtcp Producer_GetRtcp t now ++ [TimerStart 0].
Proof.
  intros Htimer Hrandom Hne Hrate. unfold OnTimer.
  rewrite Htimer, bool_decide_eq_true_2 by reflexivity.
  rewrite next_interval_spec. unfold spec_base.
  rewrite bool_decide_eq_false_2 by exact Hne. cbn [negb andb].
  destruct (Z.eqb_spec (sum_rate GetTransmissionRate now (map_to_list (mapConsumers t))) 0)
    as [H0 | _]; [lia |]. cbn [negb].
  rewrite Z.div_small by lia. unfold MaxVideoIntervalMs. rewrite Z.min_l by lia.
  rewrite (scale_zero random Hrandom). reflexivity.
Qed.

Lemma OnTimer_interval_zero_witness :
  OnTimer size_100 1000 consumer_rtcp producer_rtcp rate_400M t_p1c1 7 0 9 =
    SendRtcp size_100 1000 consumer_rtcp producer_rtcp t_p1c1 0 ++ [TimerStart 0].
Proof.
  apply (OnTimer_interval_zero size_100 1000 consumer_rtcp producer_rtcp rate_400M
           t_p1c1 7 0 9).
  - reflexivity.
  - lia.
  - intros H. assert (mapConsumers t_p1c1 !! "c1" = None) as Habs.
    { rewrite H. apply lookup_empty. }
    vm_compute in Habs. discriminate Habs.
  - vm_compute. reflexivity.
Defined.

(** X17: a transport without consumers, or whose consumers' rates sum to
    0 kbit/s, restarts the RTCP timer with exactly random * 100 ms (the
    ceiling of 1000 ms times random / 10); a timer that is not the RTCP
    timer of the transport is ignored. *)
Theorem OnTimer_idle
    GetSize BufferSize Consumer_GetRtcp Producer_GetRtcp GetTransmissionRate
    t timer now random :
  5 <= random <= 15 ->
  (mapConsumers t = ∅ \/
   sum_rate GetTransmissionRate now (map_to_list (mapConsumers t)) = 0) ->
  (rtcpTimer t = Some timer ->
   OnTimer GetSize BufferSize Consumer_GetRtcp Producer_GetRtcp GetTransmissionRate
     t timer now random =
     SendRtcp GetSize BufferSize Consumer_GetRtcp Producer_GetRtcp t now ++
     [TimerStart (100 * random)]) /\
  (rtcpTimer t <> Some timer ->
   OnTimer GetSize BufferSize Consumer_GetRtcp Producer_GetRtcp GetTransmissionRate
     t timer now random = []).
Proof.
  intros Hrandom Hidle. split.
  - intros Htimer. unfold OnTimer.
    rewrite Htimer, bool_decide_eq_true_2 by reflexivity.
    rewrite next_interval_spec.
    assert (spec_base (negb (bool_decide (mapConsumers t = ∅)))
              (sum_rate GetTransmissionRate now (map_to_list (mapConsumers t))) = 1000)
      as ->.
    { unfold spec_base. destruct Hidle as [He | H0].
      - rewrite bool_decide_eq_true_2 by exact He. reflexivity.
      - rewrite H0. cbn. rewrite andb_false_r. reflexivity. }
    rewrite (scale_ceiling random Hrandom). reflexivity.
  - intros Htimer. unfold OnTimer. rewrite bool_decide_eq_false_2; [reflexivity |].
    intros H. apply Htimer. symmetry. exact H.
Qed.

Lemma OnTimer_idle_witness :
  (rtcpTimer t_p1 = Some 7 ->
   OnTimer size_100 1000 consumer_rtcp producer_rtcp rate_8M t_p1 7 0 13 =
     SendRtcp size_100 1000 consumer_rtcp producer_rtcp t_p1 0 ++
     [TimerStart (100 * 13)]) /\
  (rtcpTimer t_p1 <> Some 7 ->
   OnTimer size_100 1000 consumer_rtcp producer_rtcp rate_8M t_p1 7 0 13 = []).
Proof.
  apply (OnTimer_idle size_100 1000 consumer_rtcp producer_rtcp rate_8M t_p1 7 0 13).
  - lia.
  - left. reflexivity.
Defined.

(** ** What SendRtcp puts on the wire *)

Section SendRtcpWire.

Variable GetSize : CompoundPacket -> Z.
Variable BufferSize : Z.
Variable Consumer_GetRtcp : Consumer -> CompoundPacket -> Z -> CompoundPacket.
Variable Producer_GetRtcp : Producer -> CompoundPacket -> Z -> CompoundPacket.

Lemma send_consumers_have_sender_report now kvs acc packet :
  In (SendRtcpCompoundPacket packet)
     (send_consumers GetSize BufferSize Consumer_GetRtcp now kvs acc).1 ->
  HasSenderReport packet = true.
Proof.
  revert acc. induction kvs as [| kv kvs IH]; intros acc; cbn [send_consumers fst].
  - intros [].
  - destruct (HasSenderReport (Consumer_GetRtcp kv.2 acc now)) eqn:Hsr; [| apply IH].
    destruct (GetSize (Consumer_GetRtcp kv.2 acc now) >? BufferSize).
    + cbn. intros [H | []]. discriminate H.
    + cbn [fst]. intros [H | [H | H]]; [discriminate H | | exact (IH [] H)].
      injection H as <-. exact Hsr.
Qed.

Lemma send_consumers_count now kvs acc :
  (length (List.filter is_send
             (send_consumers GetSize BufferSize Consumer_GetRtcp now kvs acc).1)
   <= length kvs)%nat.
Proof.
  revert acc. induction kvs as [| kv kvs IH]; intros acc; cbn [send_consumers fst length].
  - cbn. lia.
  - destruct (HasSenderReport (Consumer_GetRtcp kv.2 acc now)).
    + destruct (GetSize (Consumer_GetRtcp kv.2 acc now) >? BufferSize).
      * cbn. lia.
      * specialize (IH []). simpl in *. apply le_n_S. exact IH.
    + specialize (IH (Consumer_GetRtcp kv.2 acc now)).
      apply Nat.le_trans with (length kvs); [exact IH |].
      simpl. apply Nat.le_succ_diag_r.
Qed.

(** X18: every compound [SendRtcp] sends carries a sender report or at least
    one receiver report, never an empty compound, and one call sends at most
    one compound per consumer and one more for the producers. *)
Theorem SendRtcp_sends_reports_only t now :
  (forall packet,
     In (SendRtcpCompoundPacket packet)
        (SendRtcp GetSize BufferSize Consumer_GetRtcp Producer_GetRtcp t now) ->
     HasSenderReport packet = true \/ GetReceiverReportCount packet <> 0) /\
  (length (List.filter is_send
             (SendRtcp GetSize BufferSize Consumer_GetRtcp Producer_GetRtcp t now))
   <= size (mapConsumers t) + 1)%nat.
Proof.
  unfold SendRtcp.
  pose proof (send_consumers_have_sender_report now (map_to_list (mapConsumers t)) [])
    as Hsr.
  pose proof (send_consumers_count now (map_to_list (mapConsumers t)) []) as Hcount.
  rewrite length_map_to_list in Hcount.
  destruct (send_consumers GetSize BufferSize Consumer_GetRtcp now
              (map_to_list (mapConsumers t)) []) as [ev [acc |]]; cbn [fst snd] in *.
  - unfold send_receiver_reports.
    destruct (Z.eqb_spec
                (GetReceiverReportCount (collect_producers Producer_GetRtcp now (producers t) acc))
                0) as [H0 | Hne]; cbn [negb].
    + split.
      * intros packet. rewrite app_nil_r. intros H. left. exact (Hsr packet H).
      * rewrite app_nil_r. lia.
    + destruct (GetSize (collect_producers Producer_GetRtcp now (producers t) acc)
                >? BufferSize).
      * split.
        -- intros packet. rewrite in_app_iff. intros [H | [H | []]];
             [left; exact (Hsr packet H) | discriminate H].
        -- rewrite List.filter_app, length_app. cbn. lia.
      * split.
        -- intros packet. rewrite in_app_iff. intros [H | [H | [H | []]]];
             [left; exact (Hsr packet H) | discriminate H |].
           injection H as <-. right. exact Hne.
        -- rewrite List.filter_app, length_app. cbn. lia.
  - split; [intros packet H; left; exact (Hsr packet H) | lia].
Qed.

End SendRtcpWire.

(** A transport with nothing registered sends nothing. *)
Example SendRtcp_nothing_registered :
  SendRtcp size_100 1000 consumer_rtcp producer_rtcp t_new 0 = [].
Proof. reflexivity. Qed.
